(** * nxos_ping: the parsing of NX-OS ping output

    A shallow embedding of the text-processing functions of
    [library/nxos_ping.py]: [get_statistics_summary_line], [get_summary],
    [get_rtt] and [get_ping_results], together with the Python primitives
    they rest on ([str.split], [str.strip], [str.lstrip], slicing, the [in]
    test on strings, [list.index] and list subscription); and of [main]
    from the parameters on: the command it builds, the call of the device
    and the result it hands back.

    Strings are Rocq strings, one [ascii] per code point below 256; Python
    integers are [Z]; a Python call either returns a value or raises an
    exception, which is the [res] type below. *)

From Stdlib Require Import String Ascii List ZArith Bool Lia.
From Stdlib Require Import DecimalString Permutation.
Import ListNotations.

Open Scope string_scope.
Open Scope list_scope.
Open Scope Z_scope.

(** ** Exceptions and results *)

(** The classes of exception that occur.  The first three are Python
    built-ins raised by the operations the module uses.  The last three are
    the parse-error kinds of the design's error taxonomy; they are listed so
    that statements can speak about them. *)
Inductive exn : Type :=
| UnboundLocalError
| IndexError
| ValueError
| MarkerNotFoundError
| MalformedSummaryError
| MalformedRttError.

Inductive res (A : Type) : Type :=
| Ok (a : A)
| Raise (e : exn).

Arguments Ok {A} a.
Arguments Raise {A} e.

Definition bind {A B : Type} (c : res A) (k : A -> res B) : res B :=
  match c with
  | Ok a => k a
  | Raise e => Raise e
  end.

Notation "x <- c ;; k" := (bind c (fun x => k))
  (at level 61, c at next level, right associativity).

(** A [for] loop over a list whose body updates the local variables [st]
    and may raise. *)
Fixpoint for_each {S A : Type} (body : S -> A -> res S) (st : S) (l : list A)
  : res S :=
  match l with
  | [] => Ok st
  | x :: l' => st' <- body st x ;; for_each body st' l'
  end.

(** ** Python primitives on strings *)

Module Py.

(** [s.startswith(p)]. *)
Fixpoint startswith (p s : string) : bool :=
  match p, s with
  | EmptyString, _ => true
  | String _ _, EmptyString => false
  | String a p', String b s' => Ascii.eqb a b && startswith p' s'
  end.

(** [sub in s] for strings. *)
Fixpoint contains (sub s : string) : bool :=
  startswith sub s ||
  match s with
  | EmptyString => false
  | String _ s' => contains sub s'
  end.

(** [s.split(sep)] for a non-empty [sep], scanning from the left for
    occurrences of [sep] that do not overlap.  [skip] counts the characters
    of a separator just matched that are still to be passed over.  Every
    call site of the module passes a non-empty literal, so the [ValueError]
    of an empty separator does not arise. *)
Fixpoint split_aux (sep : string) (skip : nat) (s : string) : list string :=
  match s with
  | EmptyString => [EmptyString]
  | String c s' =>
      match skip with
      | S k => split_aux sep k s'
      | O =>
          if startswith sep s
          then EmptyString :: split_aux sep (Nat.pred (String.length sep)) s'
          else match split_aux sep O s' with
               | f :: fs => String c f :: fs
               | [] => [String c EmptyString]
               end
      end
  end.

Definition split (s sep : string) : list string := split_aux sep O s.

(** [sep.join(l)]. *)
Fixpoint join (sep : string) (l : list string) : string :=
  match l with
  | [] => EmptyString
  | [x] => x
  | x :: l' => x ++ sep ++ join sep l'
  end.

(** [c.isspace()] of a unicode character, on the code points below 256:
    tab, line feed, vertical tab, form feed, carriage return, the four
    separators 28 to 31, space, next line (133) and no-break space (160). *)
Definition isspace (c : ascii) : bool :=
  let n := nat_of_ascii c in
  ((9 <=? n) && (n <=? 13) || (28 <=? n) && (n <=? 32) ||
   (n =? 133) || (n =? 160))%nat.

(** [s.lstrip()]. *)
Fixpoint lstrip (s : string) : string :=
  match s with
  | EmptyString => EmptyString
  | String c s' => if isspace c then lstrip s' else s
  end.

(** [s.rstrip()]. *)
Fixpoint rstrip (s : string) : string :=
  match s with
  | EmptyString => EmptyString
  | String c s' =>
      match rstrip s' with
      | EmptyString => if isspace c then EmptyString else String c EmptyString
      | r => String c r
      end
  end.

(** [s.strip()]. *)
Definition strip (s : string) : string := lstrip (rstrip s).

(** The slice [s[:stop]]: a negative [stop] counts from the end, and the
    bound is clipped to the string. *)
Definition slice_to (s : string) (stop : Z) : string :=
  let n := Z.of_nat (String.length s) in
  let e := if stop <? 0 then Z.max 0 (n + stop) else Z.min stop n in
  substring 0 (Z.to_nat e) s.

(** The subscription [l[i]]: a negative [i] counts from the end; an index
    outside the list raises [IndexError]. *)
Definition getitem {A : Type} (l : list A) (i : Z) : res A :=
  let n := Z.of_nat (List.length l) in
  let j := if i <? 0 then i + n else i in
  if (0 <=? j) && (j <? n)
  then match nth_error l (Z.to_nat j) with
       | Some x => Ok x
       | None => Raise IndexError
       end
  else Raise IndexError.

(** [l.index(x)] counted from [i]: the position of the first element equal
    to [x]; [ValueError] when there is none. *)
Fixpoint index_from (x : string) (l : list string) (i : Z) : res Z :=
  match l with
  | [] => Raise ValueError
  | y :: l' => if String.eqb y x then Ok i else index_from x l' (i + 1)
  end.

Definition index (l : list string) (x : string) : res Z := index_from x l 0.

End Py.

(** ** The module's data *)

(** [dict(packets_tx=..., packets_rx=..., packet_loss=...)]. *)
Record summary : Type := mk_summary {
  packets_tx : string;
  packets_rx : string;
  packet_loss : string
}.

(** [dict(min=..., avg=..., max=...)], each value a string or [None]. *)
Record rtt : Type := mk_rtt {
  rtt_min : option string;
  rtt_avg : option string;
  rtt_max : option string
}.

(** ** The module's functions *)

Definition get_summary (results_list : list string) (reference_point : Z)
  : res summary :=
  summary_string <- Py.getitem results_list (reference_point + 1) ;;
  let summary_list := Py.split summary_string "," in
  f0 <- Py.getitem summary_list 0 ;;
  h0 <- Py.getitem (Py.split f0 "packets") 0 ;;
  let pkts_tx := Py.strip h0 in
  f1 <- Py.getitem summary_list 1 ;;
  h1 <- Py.getitem (Py.split f1 "packets") 0 ;;
  let pkts_rx := Py.strip h1 in
  f2 <- Py.getitem summary_list 2 ;;
  h2 <- Py.getitem (Py.split f2 "packet") 0 ;;
  let pkt_loss := Py.strip h2 in
  Ok (mk_summary pkts_tx pkts_rx pkt_loss).

Definition get_rtt (results_list : list string) (packet_loss : string)
  (location : Z) : res rtt :=
  if negb (String.eqb packet_loss "100.00%") then
    rtt_string <- Py.getitem results_list location ;;
    base <- Py.getitem (Py.split rtt_string "=") 1 ;;
    let rtt_list := Py.split base "/" in
    t0 <- Py.getitem rtt_list 0 ;;
    let min_rtt := Py.lstrip t0 in
    avg_rtt <- Py.getitem rtt_list 1 ;;
    t2 <- Py.getitem rtt_list 2 ;;
    let max_rtt := Py.slice_to t2 (-3) in
    Ok (mk_rtt (Some min_rtt) (Some avg_rtt) (Some max_rtt))
  else
    Ok (mk_rtt None None None).

(** The body of the loop of [get_statistics_summary_line].  The local
    [index] is [None] until its first assignment. *)
Definition marker_step (response_as_list : list string) (index : option Z)
  (each : string) : res (option Z) :=
  if Py.contains "---" each
  then i <- Py.index response_as_list each ;; Ok (Some i)
  else Ok index.

Definition get_statistics_summary_line (response_as_list : list string)
  : res Z :=
  index <- for_each (marker_step response_as_list) None response_as_list ;;
  match index with
  | Some i => Ok i
  | None => Raise UnboundLocalError
  end.

(** [get_ping_results], from the text [ping] that the device returned for
    the command. *)
Definition get_ping_results (ping : string)
  : res (list string * summary * rtt) :=
  let splitted_ping := Py.split ping (String "010" EmptyString) in
  reference_point <- get_statistics_summary_line splitted_ping ;;
  summary <- get_summary splitted_ping reference_point ;;
  rtt <- get_rtt splitted_ping (packet_loss summary) (reference_point + 2) ;;
  Ok (splitted_ping, summary, rtt).

(** ** Auxiliary definitions used in the statements *)

(** The value [dict(min=None, avg=None, max=None)]. *)
Definition null_rtt : rtt := mk_rtt None None None.

Definition rtt_all_present (r : rtt) : Prop :=
  rtt_min r <> None /\ rtt_avg r <> None /\ rtt_max r <> None.

(** The line feed, the separator of [get_ping_results]. *)
Definition nl : string := String "010" EmptyString.

(** A line is a marker line when it contains three dashes. *)
Definition is_marker (line : string) : bool := Py.contains "---" line.

(** The last marker line of a list, and the position of that line counted
    from [i]. *)
Fixpoint last_marker (l : list string) : option string :=
  match l with
  | [] => None
  | x :: l' =>
      match last_marker l' with
      | Some m => Some m
      | None => if is_marker x then Some x else None
      end
  end.

Fixpoint last_marker_index_from (l : list string) (i : Z) : option Z :=
  match l with
  | [] => None
  | x :: l' =>
      match last_marker_index_from l' (i + 1) with
      | Some j => Some j
      | None => if is_marker x then Some i else None
      end
  end.

Definition last_marker_index (l : list string) : option Z :=
  last_marker_index_from l 0.

(** The text before the first occurrence of the character [c] (the whole
    string when there is none), and the text after it. *)
Fixpoint before_first (c : ascii) (s : string) : string :=
  match s with
  | EmptyString => EmptyString
  | String a s' => if Ascii.eqb c a then EmptyString
                   else String a (before_first c s')
  end.

Fixpoint after_first (c : ascii) (s : string) : option string :=
  match s with
  | EmptyString => None
  | String a s' => if Ascii.eqb c a then Some s' else after_first c s'
  end.

(** Lines 201 to 205 of the module: what [get_rtt] makes of [base]. *)
Definition rtt_of_base (base : string) : res rtt :=
  let rtt_list := Py.split base "/" in
  t0 <- Py.getitem rtt_list 0 ;;
  avg_rtt <- Py.getitem rtt_list 1 ;;
  t2 <- Py.getitem rtt_list 2 ;;
  Ok (mk_rtt (Some (Py.lstrip t0)) (Some avg_rtt)
        (Some (Py.slice_to t2 (-3)))).

(** Lines 200 to 205: what [get_rtt] makes of the line it has read. *)
Definition rtt_of_line (rtt_string : string) : res rtt :=
  base <- Py.getitem (Py.split rtt_string "=") 1 ;;
  rtt_of_base base.

(** The reading of the RTT line in the words of the specification: the
    label is cut off at the first equals sign and the three tokens are
    taken from the entire remainder.  It is compared with [get_rtt]
    below. *)
Definition parseRtt_first_equals (rtt_string : string) : res rtt :=
  match after_first "=" rtt_string with
  | Some remainder => rtt_of_base remainder
  | None => Raise IndexError
  end.

(** A summary line is short when it has fewer than three fields between
    commas; an RTT line is short when it has no second part after an equals
    sign or that part has fewer than three tokens between slashes. *)
Definition summary_line_short (line : string) : Prop :=
  (List.length (Py.split line ",") < 3)%nat.

Definition rtt_line_short (line : string) : Prop :=
  (List.length (Py.split line "=") < 2)%nat \/
  (List.length (Py.split (nth 1 (Py.split line "=") EmptyString) "/") < 3)%nat.

(** ** Sample inputs *)

Definition scenario_a : list string :=
  [ "PING 8.8.8.8: 56 data bytes";
    "";
    "--- 8.8.8.8 ping statistics ---";
    "8 packets transmitted, 8 packets received, 0.00% packet loss";
    "round-trip min/avg/max = 5.978/6.264/6.564 ms" ].

(** The same marker line twice, as when two outputs follow each other. *)
Definition repeated_marker : list string :=
  [ "--- 8.8.8.8 ping statistics ---";
    "8 packets transmitted, 0 packets received, 100.00% packet loss";
    "--- 8.8.8.8 ping statistics ---";
    "8 packets transmitted, 8 packets received, 0.00% packet loss";
    "round-trip min/avg/max = 5.978/6.264/6.564 ms" ].

Definition no_marker : list string :=
  [ "PING 8.8.8.8: 56 data bytes"; "ping: sendto: network unreachable" ].

Definition empty_tx_token : list string :=
  [ "--- 8.8.8.8 ping statistics ---";
    " packets transmitted, 8 packets received, 0.00% packet loss" ].

Definition missing_loss_field : list string :=
  [ "--- 8.8.8.8 ping statistics ---";
    "8 packets transmitted, 8 packets received" ].

Definition four_rtt_tokens : string :=
  "round-trip min/avg/max/mdev = 5.978/6.264/6.564/0.200 ms".

Definition three_equals_parts : string :=
  "round-trip min/avg/max = 5.978/6.264/6.564 ms = ok".

(** ** The command and the task's outcome *)

(** The values a parameter of the task can hold: [None], a string, or an
    integer (the default of [count]). *)
Inductive pyval : Type :=
| PyNone
| PyStr (s : string)
| PyInt (z : Z).

(** The truth value of [arg] in [if arg:]. *)
Definition truthy (arg : pyval) : bool :=
  match arg with
  | PyNone => false
  | PyStr s => negb (String.eqb s EmptyString)
  | PyInt z => negb (z =? 0)
  end.

(** ['{0}'.format(arg)]. *)
Definition format_arg (arg : pyval) : string :=
  match arg with
  | PyNone => "None"
  | PyStr s => s
  | PyInt z => NilZero.string_of_int (Z.to_int z)
  end.

(** The dictionary [OPTIONS] of [main], as written. *)
Definition OPTIONS (vrf count source : pyval) : list (string * pyval) :=
  [("vrf", vrf); ("count", count); ("source", source)].

(** The body of the loop over [OPTIONS.iteritems()]. *)
Definition add_option (ping_command : string) (item : string * pyval)
  : string :=
  let (command, arg) := item in
  if truthy arg
  then ping_command ++ " " ++ command ++ " " ++ format_arg arg
  else ping_command.

(** Lines 268 to 272: the command, from the destination and the items in
    the order in which the dictionary yields them. *)
Definition ping_command_of (destination : string)
  (items : list (string * pyval)) : string :=
  fold_left add_option items ("ping " ++ destination)%string.

(** The parameters of the task that [main] reads for the command. *)
Record params : Type := mk_params {
  p_dest : string;
  p_count : pyval;
  p_vrf : pyval;
  p_source : pyval
}.

(** The dictionary [results] handed to [exit_json]. *)
Record results : Type := mk_results {
  r_command : string;
  r_action : string;
  r_dest : string;
  r_count : pyval;
  r_packets_tx : string;
  r_packets_rx : string;
  r_packet_loss : string;
  r_rtt : rtt
}.

(** How a run of the task ends: [module.exit_json], [module.fail_json]
    (both leave the process), or an exception that nothing catches. *)
Inductive outcome : Type :=
| exit_json (r : results)
| fail_json (msg : string) (error : option string)
| uncaught (e : exn).

(** What [device.show(command, text=True)] gives, in the two cases that
    are followed here: a [CLIError] with its text, or an answer in which
    [xmltodict] finds a text under [ins_api.outputs.output.body].  Other
    exceptions of [device.show], failures of [xmltodict.parse] and of the
    four subscripts, and an answer whose body is empty or is not a text,
    have no value in this type: what is said of [Body body] is said of an
    answer with the text [body]. *)
Inductive shown : Type :=
| CLIError (clie : string)
| Body (body : string).

(** Lines 174 to 178 and 181 of [parsed_data_from_device]: the [CLIError]
    is turned into [fail_json], the text is handed back.  The finding of
    the body, lines 179 to 180, is in the answer, see [shown]. *)
Definition parsed_data_from_device (device : string -> shown)
  (command : string) : outcome + string :=
  match device command with
  | CLIError clie =>
      inl (fail_json ("Error sending " ++ command)%string (Some clie))
  | Body body => inr body
  end.

(** [main], from the parameters on: lines 244 to 245 and 254 to 291.
    [AnsibleModule(...)], which may itself end the run with [fail_json] on
    arguments it refuses, the credentials, the name resolution and the
    making of the device (lines 230 to 243 and 247 to 260) have happened
    and are not followed.  [HAS_PYCSCO] is the module's flag, [iteritems]
    the order in which the dictionary yields its items, [device] the
    switch. *)
Definition main (HAS_PYCSCO : bool) (p : params)
  (iteritems : list (string * pyval) -> list (string * pyval))
  (device : string -> shown) : outcome :=
  if negb HAS_PYCSCO
  then fail_json "There was a problem loading pycsco" None
  else
    let destination := p_dest p in
    let count := p_count p in
    let ping_command :=
      ping_command_of destination
        (iteritems (OPTIONS (p_vrf p) count (p_source p))) in
    match parsed_data_from_device device ping_command with
    | inl failed => failed
    | inr ping =>
        match get_ping_results ping with
        | Raise e => uncaught e
        | Ok (ping_results, summary, rtt) =>
            match Py.getitem ping_results 0 with
            | Raise e => uncaught e
            | Ok action =>
                exit_json
                  (mk_results ping_command action destination count
                     (packets_tx summary) (packets_rx summary)
                     (packet_loss summary) rtt)
            end
        end
    end.

(** ** The switch's output format *)

(** Every character of a string passes the test [p]. *)
Fixpoint all_chars (p : ascii -> bool) (s : string) : bool :=
  match s with
  | EmptyString => true
  | String c s' => p c && all_chars p s'
  end.

(** The character [c] does not occur in the string. *)
Definition absent (c : ascii) (s : string) : bool :=
  all_chars (fun a => negb (Ascii.eqb c a)) s.

(** The characters of the numbers the switch prints: digits, the point
    and the percent sign. *)
Definition plain_char (c : ascii) : bool :=
  let n := nat_of_ascii c in
  ((48 <=? n) && (n <=? 57) || (n =? 46) || (n =? 37))%nat.

Definition plain_token (t : string) : bool := all_chars plain_char t.

(** The three lines of the statistics, as the switch prints them. *)
Definition marker_line (dest : string) : string :=
  "--- " ++ dest ++ " ping statistics ---".

Definition summary_line (tx rx loss : string) : string :=
  tx ++ " packets transmitted, " ++ rx ++ " packets received, " ++
  loss ++ " packet loss".

Definition rtt_line (mn av mx : string) : string :=
  "round-trip min/avg/max = " ++ mn ++ "/" ++ av ++ "/" ++ mx ++ " ms".

(** The same two lines with other words after [packets] and [packet], and
    with another label and unit. *)
Definition summary_line_with (tx w0 rx w1 loss w2 : string) : string :=
  tx ++ " packets" ++ w0 ++ "," ++ " " ++ rx ++ " packets" ++ w1 ++ "," ++
  " " ++ loss ++ " packet" ++ w2.

Definition rtt_line_with (label mn av mx unit : string) : string :=
  label ++ "=" ++ " " ++ mn ++ "/" ++ av ++ "/" ++ mx ++ unit.

(** The output for a total loss, which has no RTT line. *)
Definition scenario_b : list string :=
  [ "PING 8.8.8.8: 56 data bytes";
    "";
    "--- 8.8.8.8 ping statistics ---";
    "8 packets transmitted, 0 packets received, 100.00% packet loss" ].

(** ** Facts about the Python primitives *)

Section PyFacts.

Context {A : Type}.
Implicit Types (l : list A) (i : Z).

Lemma getitem_nonneg l i :
  0 <= i ->
  Py.getitem l i =
  match nth_error l (Z.to_nat i) with
  | Some x => Ok x
  | None => Raise IndexError
  end.
Proof.
  intros Hi. unfold Py.getitem.
  destruct (Z.ltb_spec i 0) as [Hneg | _]; [lia |].
  destruct (Z.leb_spec 0 i) as [_ | Hneg]; [| lia].
  destruct (Z.ltb_spec i (Z.of_nat (List.length l))) as [Hlt | Hge]; simpl.
  - reflexivity.
  - assert (Hnone : nth_error l (Z.to_nat i) = None)
      by (apply nth_error_None; lia).
    now rewrite Hnone.
Qed.

Lemma getitem_raises_IndexError l i e :
  Py.getitem l i = Raise e -> e = IndexError.
Proof.
  unfold Py.getitem.
  destruct (_ && _); [destruct (nth_error _ _) |]; congruence.
Qed.

(** An index is in range when [-len <= i < len]. *)
Lemma getitem_out_of_range l i :
  Py.getitem l i = Raise IndexError <->
  i < - Z.of_nat (List.length l) \/ Z.of_nat (List.length l) <= i.
Proof.
  unfold Py.getitem.
  set (n := Z.of_nat (List.length l)).
  destruct (Z.ltb_spec i 0) as [Hneg | Hpos].
  - destruct (Z.leb_spec 0 (i + n)) as [Hlo | Hlo]; simpl.
    + destruct (Z.ltb_spec (i + n) n) as [_ | Hhi]; [| lia].
      destruct (nth_error l (Z.to_nat (i + n))) eqn:Hnth.
      * split; [discriminate | lia].
      * apply nth_error_None in Hnth. lia.
    + split; [lia | reflexivity].
  - destruct (Z.leb_spec 0 i) as [_ | Hlo]; [| lia]. simpl.
    destruct (Z.ltb_spec i n) as [Hhi | Hhi].
    + destruct (nth_error l (Z.to_nat i)) eqn:Hnth.
      * split; [discriminate | lia].
      * apply nth_error_None in Hnth. lia.
    + split; [lia | reflexivity].
Qed.

Lemma getitem_0 l :
  Py.getitem l 0 = match l with x :: _ => Ok x | [] => Raise IndexError end.
Proof. rewrite getitem_nonneg by lia. now destruct l. Qed.

Lemma getitem_1 l :
  Py.getitem l 1 =
  match l with _ :: x :: _ => Ok x | _ => Raise IndexError end.
Proof. rewrite getitem_nonneg by lia. now destruct l as [| ? [| ? ?]]. Qed.

Lemma getitem_2 l :
  Py.getitem l 2 =
  match l with _ :: _ :: x :: _ => Ok x | _ => Raise IndexError end.
Proof.
  rewrite getitem_nonneg by lia. now destruct l as [| ? [| ? [| ? ?]]].
Qed.

End PyFacts.

Lemma split_aux_not_nil sep s : forall skip, Py.split_aux sep skip s <> [].
Proof.
  induction s as [| c s IH]; intros skip; simpl.
  - discriminate.
  - destruct skip; [| apply IH].
    destruct (Py.startswith sep (String c s)); [discriminate |].
    destruct (Py.split_aux sep 0 s); discriminate.
Qed.

Lemma split_not_nil s sep : Py.split s sep <> [].
Proof. apply split_aux_not_nil. Qed.

(** The first field of a split always exists. *)
Lemma getitem_split_0 s sep :
  Py.getitem (Py.split s sep) 0 = Ok (hd EmptyString (Py.split s sep)).
Proof.
  rewrite getitem_0.
  destruct (Py.split s sep) eqn:E; [now apply split_not_nil in E | reflexivity].
Qed.

(** *** Splitting on a single character *)

Lemma split_char_cons c a s :
  Py.split (String a s) (String c EmptyString) =
  if Ascii.eqb c a
  then EmptyString :: Py.split s (String c EmptyString)
  else match Py.split s (String c EmptyString) with
       | f :: fs => String a f :: fs
       | [] => [String a EmptyString]
       end.
Proof.
  unfold Py.split. simpl.
  destruct (Ascii.eqb c a); simpl; [| reflexivity].
  now destruct s.
Qed.

Lemma before_first_absent c s :
  after_first c s = None -> before_first c s = s.
Proof.
  induction s as [| a s IH]; simpl; [reflexivity |].
  destruct (Ascii.eqb c a); [discriminate |].
  intros H. now rewrite IH.
Qed.

(** The first field is the text before the first separator; the other
    fields are those of the text after it. *)
Lemma split_char_first c s :
  Py.split s (String c EmptyString) =
  match after_first c s with
  | None => [s]
  | Some r => before_first c s :: Py.split r (String c EmptyString)
  end.
Proof.
  induction s as [| a s IH].
  - reflexivity.
  - rewrite split_char_cons. simpl.
    destruct (Ascii.eqb c a); [reflexivity |].
    rewrite IH. now destruct (after_first c s).
Qed.

Lemma hd_split_char c s :
  hd EmptyString (Py.split s (String c EmptyString)) = before_first c s.
Proof.
  rewrite split_char_first.
  destruct (after_first c s) eqn:E; simpl; [reflexivity |].
  symmetry. now apply before_first_absent.
Qed.

Lemma contains_char c s :
  Py.contains (String c EmptyString) s = true <-> after_first c s <> None.
Proof.
  induction s as [| a s IH]; simpl.
  - split; [discriminate | congruence].
  - destruct (Ascii.eqb c a); simpl.
    + split; [discriminate | reflexivity].
    + exact IH.
Qed.

(** *** Joining the fields of a split gives the text back *)

Lemma join_cons_head sep a f fs :
  Py.join sep (String a f :: fs) = String a (Py.join sep (f :: fs)).
Proof. destruct fs; reflexivity. Qed.

Lemma join_split_char c s :
  Py.join (String c EmptyString) (Py.split s (String c EmptyString)) = s.
Proof.
  induction s as [| a s IH]; [reflexivity |].
  rewrite split_char_cons.
  pose proof (split_not_nil s (String c EmptyString)) as Hne.
  destruct (Py.split s (String c EmptyString)) as [| f fs]; [congruence |].
  destruct (Ascii.eqb_spec c a) as [-> | _].
  - simpl in *. now rewrite IH.
  - rewrite join_cons_head. now rewrite IH.
Qed.

(** ** The functions in closed form *)

(** [get_summary] by cases on the line it reads and on its fields. *)
Lemma get_summary_eq l rp :
  get_summary l rp =
  match Py.getitem l (rp + 1) with
  | Raise e => Raise e
  | Ok line =>
      match Py.split line "," with
      | f0 :: f1 :: f2 :: _ =>
          Ok (mk_summary
                (Py.strip (hd EmptyString (Py.split f0 "packets")))
                (Py.strip (hd EmptyString (Py.split f1 "packets")))
                (Py.strip (hd EmptyString (Py.split f2 "packet"))))
      | _ => Raise IndexError
      end
  end.
Proof.
  unfold get_summary.
  destruct (Py.getitem l (rp + 1)) as [line | e]; simpl; [| reflexivity].
  rewrite getitem_0, getitem_1, getitem_2.
  pose proof (split_not_nil line ",") as Hne.
  destruct (Py.split line ",") as [| f0 [| f1 [| f2 rest]]]; simpl;
    try congruence; rewrite !getitem_split_0; reflexivity.
Qed.

Lemma rtt_of_base_eq base :
  rtt_of_base base =
  match Py.split base "/" with
  | t0 :: t1 :: t2 :: _ =>
      Ok (mk_rtt (Some (Py.lstrip t0)) (Some t1) (Some (Py.slice_to t2 (-3))))
  | _ => Raise IndexError
  end.
Proof.
  unfold rtt_of_base. rewrite getitem_0, getitem_1, getitem_2.
  now destruct (Py.split base "/") as [| t0 [| t1 [| t2 rest]]].
Qed.

Lemma rtt_of_line_eq line :
  rtt_of_line line =
  match Py.split line "=" with
  | _ :: base :: _ => rtt_of_base base
  | _ => Raise IndexError
  end.
Proof.
  unfold rtt_of_line. rewrite getitem_1.
  now destruct (Py.split line "=") as [| lbl [| base rest]].
Qed.

(** The two branches of [get_rtt]. *)
Lemma get_rtt_total_loss l loc : get_rtt l "100.00%" loc = Ok null_rtt.
Proof. reflexivity. Qed.

Lemma get_rtt_other_loss l pl loc :
  pl <> "100.00%" ->
  get_rtt l pl loc = (rtt_string <- Py.getitem l loc ;; rtt_of_line rtt_string).
Proof.
  intros Hpl. unfold get_rtt.
  destruct (String.eqb_spec pl "100.00%") as [E | _]; [contradiction |].
  reflexivity.
Qed.

(** What [rtt_of_line] returns, when it returns, has its three fields. *)
Lemma rtt_of_line_cases line :
  (rtt_line_short line /\ rtt_of_line line = Raise IndexError) \/
  (~ rtt_line_short line /\
   exists a b c, rtt_of_line line = Ok (mk_rtt (Some a) (Some b) (Some c))).
Proof.
  rewrite rtt_of_line_eq. unfold rtt_line_short.
  destruct (Py.split line "=") as [| lbl [| base rest]];
    [left; split; [left; simpl; lia | reflexivity] ..|].
  rewrite rtt_of_base_eq. cbn [nth].
  destruct (Py.split base "/") as [| t0 [| t1 [| t2 rest']]];
    [left; split; [right; simpl; lia | reflexivity] ..|].
  right. split; [intros [H | H]; simpl in H; lia | eauto].
Qed.

(** *** The marker loop *)

Lemma index_from_In x l : forall i,
  In x l -> exists j, Py.index_from x l i = Ok j.
Proof.
  induction l as [| y l IH]; intros i Hin; [contradiction |].
  simpl. destruct (String.eqb y x) eqn:E; [eauto |].
  destruct Hin as [-> | Hin]; [now rewrite String.eqb_refl in E |].
  now apply IH.
Qed.

Lemma last_marker_In l m : last_marker l = Some m -> In m l.
Proof.
  induction l as [| x l IH]; simpl; [discriminate |].
  destruct (last_marker l) as [m' |].
  - intros [= ->]. right. now apply IH.
  - destruct (is_marker x); [| discriminate]. intros [= ->]. now left.
Qed.

Lemma last_marker_is_marker l m : last_marker l = Some m -> is_marker m = true.
Proof.
  induction l as [| x l IH]; simpl; [discriminate |].
  destruct (last_marker l) as [m' |].
  - intros [= ->]. now apply IH.
  - destruct (is_marker x) eqn:E; [| discriminate]. now intros [= <-].
Qed.

Lemma last_marker_none l :
  last_marker l = None <-> (forall s, In s l -> is_marker s = false).
Proof.
  induction l as [| x l IH]; simpl.
  - split; [intros _ s [] | reflexivity].
  - destruct (last_marker l) as [m |] eqn:E.
    + split; [discriminate |]. intros H.
      assert (Hm : is_marker m = false)
        by (apply H; right; now apply last_marker_In).
      apply last_marker_is_marker in E. congruence.
    + destruct (is_marker x) eqn:Ex.
      * split; [discriminate |]. intros H.
        specialize (H x (or_introl eq_refl)). congruence.
      * split; [| reflexivity]. intros _ s [<- | Hs]; [assumption |].
        now apply IH.
Qed.

(** The loop over a part [l'] of the list [l]: the local [index] ends as
    the result of [l.index] on the last marker line of [l']. *)
Lemma for_each_marker_step l : forall l' st,
  incl l' l ->
  for_each (marker_step l) st l' =
  match last_marker l' with
  | None => Ok st
  | Some m => i <- Py.index l m ;; Ok (Some i)
  end.
Proof.
  induction l' as [| x l' IH]; intros st Hincl; [reflexivity |].
  assert (Hx : In x l) by (apply Hincl; now left).
  assert (Hincl' : incl l' l) by (intros y Hy; apply Hincl; now right).
  simpl. unfold marker_step at 1. fold (is_marker x).
  destruct (is_marker x) eqn:Ex.
  - destruct (index_from_In x l 0 Hx) as [j Hj].
    unfold Py.index at 1. rewrite Hj. simpl.
    rewrite (IH _ Hincl'). destruct (last_marker l'); [reflexivity |].
    unfold Py.index. now rewrite Hj.
  - simpl. rewrite (IH _ Hincl'). now destruct (last_marker l').
Qed.

Lemma get_statistics_summary_line_eq l :
  get_statistics_summary_line l =
  match last_marker l with
  | None => Raise UnboundLocalError
  | Some m => Py.index l m
  end.
Proof.
  unfold get_statistics_summary_line.
  rewrite for_each_marker_step by apply incl_refl.
  destruct (last_marker l) as [m |] eqn:E; [| reflexivity].
  destruct (index_from_In m l 0 (last_marker_In _ _ E)) as [j Hj].
  unfold Py.index. now rewrite Hj.
Qed.

Lemma last_marker_index_none l : forall i,
  last_marker l = None -> last_marker_index_from l i = None.
Proof.
  induction l as [| x l IH]; intros i; simpl; [reflexivity |].
  destruct (last_marker l); [discriminate |].
  rewrite IH by reflexivity. now destruct (is_marker x).
Qed.

(** When the last marker line occurs once in the list, [l.index] finds it
    where it stands. *)
Lemma index_from_last_marker l : forall i m,
  last_marker l = Some m ->
  count_occ string_dec l m = 1%nat ->
  exists k, last_marker_index_from l i = Some k /\ Py.index_from m l i = Ok k.
Proof.
  induction l as [| x l IH]; intros i m; simpl; [discriminate |].
  destruct (last_marker l) as [m' |] eqn:E.
  - intros [= ->] Hcount.
    assert (Hin : (count_occ string_dec l m > 0)%nat)
      by (apply count_occ_In; now apply last_marker_In).
    destruct (string_dec x m) as [-> | Hne]; [lia |].
    destruct (IH (i + 1) m eq_refl Hcount) as (k & Hk & Hidx).
    exists k. rewrite Hk. split; [reflexivity |].
    destruct (String.eqb_spec x m); [contradiction | assumption].
  - destruct (is_marker x) eqn:Ex; [| discriminate].
    intros [= ->] _. exists i.
    rewrite last_marker_index_none by assumption.
    now rewrite String.eqb_refl.
Qed.

(** What a result of [get_ping_results] is made of. *)
Lemma get_ping_results_Ok ping lines s r :
  get_ping_results ping = Ok (lines, s, r) ->
  lines = Py.split ping nl /\
  exists reference_point,
    get_statistics_summary_line lines = Ok reference_point /\
    get_summary lines reference_point = Ok s /\
    get_rtt lines (packet_loss s) (reference_point + 2) = Ok r.
Proof.
  unfold get_ping_results. fold nl. set (sp := Py.split ping nl).
  destruct (get_statistics_summary_line sp) as [rp |] eqn:Hrp; simpl;
    [| discriminate].
  destruct (get_summary sp rp) as [s' |] eqn:Hs; simpl; [| discriminate].
  destruct (get_rtt sp (packet_loss s') (rp + 2)) as [r' |] eqn:Hr; simpl;
    [| discriminate].
  intros [= <- <- <-]. split; [reflexivity |]. exists rp. auto.
Qed.

(** ** The marker line *)

(** When the last marker line occurs once in the list,
    [get_statistics_summary_line] returns the position of the last marker
    line. *)
Theorem get_statistics_summary_line_unique_marker l m :
  last_marker l = Some m ->
  count_occ string_dec l m = 1%nat ->
  exists k,
    last_marker_index l = Some k /\ get_statistics_summary_line l = Ok k.
Proof.
  intros Hm Hcount. rewrite get_statistics_summary_line_eq, Hm.
  exact (index_from_last_marker l 0 m Hm Hcount).
Qed.

Lemma get_statistics_summary_line_unique_marker_scenario_a :
  exists k,
    last_marker_index scenario_a = Some k /\
    get_statistics_summary_line scenario_a = Ok k.
Proof.
  apply (get_statistics_summary_line_unique_marker scenario_a
           "--- 8.8.8.8 ping statistics ---"); reflexivity.
Defined.

(** C1.  On [repeated_marker] the last line with three dashes stands at
    index 2 and is equal to the line at index 0: the function returns 0,
    the result of [list.index], and the summary is then read from index 1
    and not from index 3. *)
Theorem get_statistics_summary_line_repeated_marker :
  last_marker_index repeated_marker = Some 2 /\
  get_statistics_summary_line repeated_marker = Ok 0 /\
  get_summary repeated_marker 0 = Ok (mk_summary "8" "0" "100.00%") /\
  get_summary repeated_marker 2 = Ok (mk_summary "8" "8" "0.00%").
Proof. repeat split; reflexivity. Qed.

(** C2, as the code has it.  When no line contains three dashes the local
    [index] is never bound: [get_statistics_summary_line] raises
    [UnboundLocalError], and [get_ping_results], which has no handler,
    raises it too. *)
Theorem get_statistics_summary_line_no_marker l :
  (forall s, In s l -> Py.contains "---" s = false) ->
  get_statistics_summary_line l = Raise UnboundLocalError /\
  (forall ping, Py.split ping nl = l ->
                get_ping_results ping = Raise UnboundLocalError).
Proof.
  intros Hno.
  assert (H : get_statistics_summary_line l = Raise UnboundLocalError).
  { rewrite get_statistics_summary_line_eq.
    now rewrite (proj2 (last_marker_none l) Hno). }
  split; [exact H |].
  intros ping <-. unfold get_ping_results. fold nl. now rewrite H.
Qed.

Lemma get_statistics_summary_line_no_marker_witness :
  get_statistics_summary_line no_marker = Raise UnboundLocalError /\
  (forall ping, Py.split ping nl = no_marker ->
                get_ping_results ping = Raise UnboundLocalError).
Proof.
  apply (get_statistics_summary_line_no_marker no_marker).
  intros s [<- | [<- | []]]; reflexivity.
Defined.

(** Conversely, [get_statistics_summary_line] raises nothing else, and
    raises only when no line contains three dashes. *)
Lemma get_statistics_summary_line_raises l e :
  get_statistics_summary_line l = Raise e ->
  e = UnboundLocalError /\ (forall s, In s l -> Py.contains "---" s = false).
Proof.
  rewrite get_statistics_summary_line_eq.
  destruct (last_marker l) as [m |] eqn:E.
  - destruct (index_from_In m l 0 (last_marker_In _ _ E)) as [j Hj].
    unfold Py.index. rewrite Hj. discriminate.
  - intros [= <-]. split; [reflexivity |]. now apply last_marker_none.
Qed.

(** C2, as stated, fails on [no_marker]: no line has three dashes, and the
    exception is [UnboundLocalError], not [MarkerNotFoundError]. *)
Lemma get_statistics_summary_line_no_MarkerNotFoundError :
  forallb (fun s => negb (Py.contains "---" s)) no_marker = true /\
  get_statistics_summary_line no_marker = Raise UnboundLocalError /\
  get_statistics_summary_line no_marker <> Raise MarkerNotFoundError.
Proof. split; [| split]; [reflexivity | reflexivity | discriminate]. Qed.

(** ** The summary line *)

(** C3, as the code has it.  [get_summary] raises exactly when the index
    [reference_point + 1] is outside the list or the line there has fewer
    than three fields between commas, and then it raises [IndexError];
    with three fields or more it returns the three trimmed tokens, empty
    or not. *)
Theorem get_summary_raises_iff_short l rp :
  (get_summary l rp = Raise IndexError <->
   Py.getitem l (rp + 1) = Raise IndexError \/
   exists line, Py.getitem l (rp + 1) = Ok line /\ summary_line_short line) /\
  (forall e, get_summary l rp = Raise e -> e = IndexError) /\
  (forall line f0 f1 f2 rest,
     Py.getitem l (rp + 1) = Ok line ->
     Py.split line "," = f0 :: f1 :: f2 :: rest ->
     get_summary l rp =
     Ok (mk_summary (Py.strip (hd EmptyString (Py.split f0 "packets")))
                    (Py.strip (hd EmptyString (Py.split f1 "packets")))
                    (Py.strip (hd EmptyString (Py.split f2 "packet"))))).
Proof.
  rewrite get_summary_eq. unfold summary_line_short.
  destruct (Py.getitem l (rp + 1)) as [line | e] eqn:Hget.
  - destruct (Py.split line ",") as [| f0 [| f1 [| f2 rest]]] eqn:Hsplit.
    1-3: repeat split;
      [ intros _; right; exists line; rewrite Hsplit; simpl; split;
        [reflexivity | lia]
      | congruence
      | intros ? ? ? ? ? [= <-]; rewrite Hsplit; discriminate ].
    repeat split.
    + discriminate.
    + intros [H | (line' & [= <-] & H)]; [discriminate |].
      rewrite Hsplit in H. simpl in H. lia.
    + discriminate.
    + intros ? ? ? ? ? [= <-]. rewrite Hsplit. now intros [= <- <- <- <-].
  - apply getitem_raises_IndexError in Hget as ->.
    repeat split; [now left | congruence | discriminate].
Qed.

(** C3, as stated, fails: on [empty_tx_token] the first trimmed token is
    empty and a summary is returned; on [missing_loss_field] the exception
    is [IndexError], not [MalformedSummaryError]. *)
Lemma get_summary_empty_token_returned :
  get_summary empty_tx_token 0 = Ok (mk_summary "" "8" "0.00%") /\
  get_summary missing_loss_field 0 = Raise IndexError /\
  get_summary missing_loss_field 0 <> Raise MalformedSummaryError.
Proof. split; [| split]; [reflexivity | reflexivity | discriminate]. Qed.

(** C9.  [get_summary] reads the list at index [reference_point + 1] only:
    two lists with the same outcome of that subscription give the same
    result, whatever their other lines are. *)
Theorem get_summary_depends_on_one_line l1 l2 rp :
  Py.getitem l1 (rp + 1) = Py.getitem l2 (rp + 1) ->
  get_summary l1 rp = get_summary l2 rp.
Proof. intros H. rewrite !get_summary_eq. now rewrite H. Qed.

Lemma get_summary_depends_on_one_line_witness :
  get_summary scenario_a 2 =
  get_summary
    [ "no marker here"; "";  "nor here";
      "8 packets transmitted, 8 packets received, 0.00% packet loss" ] 2.
Proof.
  apply (get_summary_depends_on_one_line scenario_a). reflexivity.
Defined.

(** ** The RTT line *)

(** C4, as the code has it.  [get_rtt] raises exactly when the loss is not
    ["100.00%"] and the index [location] is outside the list, or the line
    there has fewer than two parts between equals signs, or its second part
    has fewer than three tokens between slashes; and then it raises
    [IndexError].  Parts after the second and tokens after the third are
    ignored. *)
Theorem get_rtt_raises_iff_short l pl loc :
  (get_rtt l pl loc = Raise IndexError <->
   pl <> "100.00%" /\
   (Py.getitem l loc = Raise IndexError \/
    exists line, Py.getitem l loc = Ok line /\ rtt_line_short line)) /\
  (forall e, get_rtt l pl loc = Raise e -> e = IndexError).
Proof.
  destruct (string_dec pl "100.00%") as [-> | Hpl].
  - rewrite get_rtt_total_loss.
    split; [split |]; [discriminate | now intros [H _] | discriminate].
  - rewrite (get_rtt_other_loss l pl loc Hpl).
    destruct (Py.getitem l loc) as [line | e] eqn:Hget; simpl.
    + destruct (rtt_of_line_cases line) as [[Hs ->] | [Hs (a & b & c & ->)]].
      * split; [split |].
        -- intros _. split; [assumption | right; eauto].
        -- reflexivity.
        -- congruence.
      * split; [split |]; try discriminate.
        intros [_ [H | (line' & [= <-] & H)]]; [discriminate | contradiction].
    + apply getitem_raises_IndexError in Hget as ->.
      split; [split |].
      * intros _. split; [assumption | now left].
      * reflexivity.
      * congruence.
Qed.

(** C4, as stated, fails: a line with four tokens between slashes, and a
    line with three parts between equals signs, both give a result. *)
Lemma get_rtt_extra_tokens_returned :
  List.length (Py.split " 5.978/6.264/6.564/0.200 ms" "/") = 4%nat /\
  get_rtt [four_rtt_tokens] "0.00%" 0 =
    Ok (mk_rtt (Some "5.978") (Some "6.264") (Some "6.")) /\
  List.length (Py.split three_equals_parts "=") = 3%nat /\
  get_rtt [three_equals_parts] "0.00%" 0 =
    Ok (mk_rtt (Some "5.978") (Some "6.264") (Some "6.564 ")).
Proof. repeat split; reflexivity. Qed.

(** C5, as the code has it.  [get_rtt] returns the dictionary of three
    [None] exactly when the loss is the string ["100.00%"], and then it
    returns it whatever the list and the index are, without an error.  For
    another loss it either raises [IndexError] or returns a dictionary with
    its three values: a returned dictionary always has them, and one is
    returned whenever the line read is not short. *)
Theorem get_rtt_null_iff_total_loss l pl loc :
  (get_rtt l pl loc = Ok null_rtt <-> pl = "100.00%") /\
  (pl = "100.00%" -> forall l' loc', get_rtt l' pl loc' = Ok null_rtt) /\
  (pl <> "100.00%" ->
   (get_rtt l pl loc = Raise IndexError \/
    exists r, get_rtt l pl loc = Ok r /\ rtt_all_present r) /\
   (forall r, get_rtt l pl loc = Ok r -> rtt_all_present r) /\
   (forall line, Py.getitem l loc = Ok line -> ~ rtt_line_short line ->
                 exists r, get_rtt l pl loc = Ok r /\ rtt_all_present r)).
Proof.
  assert (Hpresent : forall a b c,
            rtt_all_present (mk_rtt (Some a) (Some b) (Some c)))
    by (intros; repeat split; discriminate).
  destruct (string_dec pl "100.00%") as [-> | Hpl].
  - rewrite get_rtt_total_loss.
    split; [split; reflexivity | split; [reflexivity | contradiction]].
  - rewrite (get_rtt_other_loss l pl loc Hpl).
    split; [| split; [contradiction | intros _; split; [| split]]].
    + split; [| contradiction].
      destruct (Py.getitem l loc) as [line | e]; simpl; [| discriminate].
      destruct (rtt_of_line_cases line) as [[_ ->] | [_ (a & b & c & ->)]];
        discriminate.
    + destruct (Py.getitem l loc) as [line | e] eqn:Hget; simpl.
      * destruct (rtt_of_line_cases line)
          as [[_ ->] | [_ (a & b & c & ->)]]; [now left | right].
        eexists. split; [reflexivity | apply Hpresent].
      * left. now rewrite (getitem_raises_IndexError _ _ _ Hget).
    + intros r.
      destruct (Py.getitem l loc) as [line | e]; simpl; [| discriminate].
      destruct (rtt_of_line_cases line) as [[_ ->] | [_ (a & b & c & ->)]];
        [discriminate |].
      intros [= <-]. apply Hpresent.
    + intros line -> Hlong. simpl.
      destruct (rtt_of_line_cases line) as [[Hs _] | [_ (a & b & c & ->)]];
        [contradiction |].
      eexists. split; [reflexivity | apply Hpresent].
Qed.

(** C5, as stated, fails: for the loss ["0.00%"] and a list with no line
    at the index, [get_rtt] raises [IndexError] and returns no dictionary;
    so it does for a line without an equals sign. *)
Lemma get_rtt_other_loss_may_raise :
  String.eqb "0.00%" "100.00%" = false /\
  get_rtt [] "0.00%" 0 = Raise IndexError /\
  get_rtt ["request timed out"] "0.00%" 0 = Raise IndexError.
Proof. repeat split; reflexivity. Qed.

(** C10.  For a loss other than the exact string ["100.00%"], [get_rtt]
    reads the list at index [location] and goes on with that line: the
    result is never the dictionary of three [None], and it is [IndexError]
    when the index is outside the list. *)
Theorem get_rtt_reads_line_unless_exact_total_loss l pl loc :
  pl <> "100.00%" ->
  get_rtt l pl loc = (rtt_string <- Py.getitem l loc ;; rtt_of_line rtt_string) /\
  get_rtt l pl loc <> Ok null_rtt /\
  (loc < - Z.of_nat (List.length l) \/ Z.of_nat (List.length l) <= loc ->
   get_rtt l pl loc = Raise IndexError).
Proof.
  intros Hpl. rewrite (get_rtt_other_loss l pl loc Hpl).
  split; [reflexivity | split].
  - destruct (Py.getitem l loc) as [line | e]; simpl; [| discriminate].
    destruct (rtt_of_line_cases line) as [[_ ->] | [_ (a & b & c & ->)]];
      discriminate.
  - intros Hout. apply getitem_out_of_range in Hout. now rewrite Hout.
Qed.

Lemma get_rtt_reads_line_unless_exact_total_loss_witness :
  get_rtt ["--- 8.8.8.8 ping statistics ---"; "1 packets transmitted"]
    "100%" 2 =
    (rtt_string <-
       Py.getitem ["--- 8.8.8.8 ping statistics ---"; "1 packets transmitted"]
         2 ;;
     rtt_of_line rtt_string) /\
  get_rtt ["--- 8.8.8.8 ping statistics ---"; "1 packets transmitted"]
    "100%" 2 <> Ok null_rtt /\
  (2 < - 2 \/ 2 <= 2 ->
   get_rtt ["--- 8.8.8.8 ping statistics ---"; "1 packets transmitted"]
     "100%" 2 = Raise IndexError).
Proof.
  apply (get_rtt_reads_line_unless_exact_total_loss
           ["--- 8.8.8.8 ping statistics ---"; "1 packets transmitted"]
           "100%" 2).
  discriminate.
Defined.

(** Other spellings of a total loss take the reading branch. *)
Example get_rtt_other_spellings :
  get_rtt [] "100%" 0 = Raise IndexError /\
  get_rtt [] "100.0%" 0 = Raise IndexError /\
  get_rtt [] "100.00 %" 0 = Raise IndexError /\
  get_rtt [] "100.00%" 0 = Ok null_rtt.
Proof. repeat split; reflexivity. Qed.

(** C7, as the code has it.  On a line with an equals sign, for a loss
    other than ["100.00%"], [get_rtt] takes its tokens from the text between
    the first equals sign and the next one (or the end of the line): it is
    the entire remainder, and the result that of [parseRtt_first_equals],
    when the remainder has no equals sign.  [get_ping_results] passes the
    index two after the marker's. *)
Theorem get_rtt_base_up_to_second_equals l pl loc line :
  pl <> "100.00%" ->
  Py.getitem l loc = Ok line ->
  Py.contains "=" line = true ->
  exists remainder,
    after_first "=" line = Some remainder /\
    get_rtt l pl loc = rtt_of_base (before_first "=" remainder) /\
    (Py.contains "=" remainder = false ->
     get_rtt l pl loc = parseRtt_first_equals line) /\
    (forall ping lines s r,
       get_ping_results ping = Ok (lines, s, r) ->
       exists reference_point,
         get_statistics_summary_line lines = Ok reference_point /\
         get_rtt lines (packet_loss s) (reference_point + 2) = Ok r).
Proof.
  intros Hpl Hget Hcontains.
  apply contains_char in Hcontains.
  destruct (after_first "=" line) as [remainder |] eqn:Hafter; [| congruence].
  exists remainder. split; [reflexivity |].
  assert (Hbase : get_rtt l pl loc = rtt_of_base (before_first "=" remainder)).
  { rewrite (get_rtt_other_loss l pl loc Hpl), Hget. simpl.
    rewrite rtt_of_line_eq, (split_char_first "=" line), Hafter.
    pose proof (hd_split_char "=" remainder) as Hhd.
    pose proof (split_not_nil remainder "=") as Hne.
    destruct (Py.split remainder "=") as [| base rest]; [congruence |].
    simpl in Hhd. now subst base. }
  split; [exact Hbase | split].
  - intros Hnone. rewrite Hbase. unfold parseRtt_first_equals. rewrite Hafter.
    f_equal. apply before_first_absent.
    destruct (after_first "=" remainder) eqn:E; [| reflexivity].
    assert (Py.contains "=" remainder = true)
      by (apply contains_char; congruence).
    congruence.
  - intros ping lines s r Hres.
    destruct (get_ping_results_Ok _ _ _ _ Hres) as (_ & rp & Hrp & _ & Hr).
    exists rp. split; assumption.
Qed.

Lemma get_rtt_base_up_to_second_equals_witness :
  exists remainder,
    after_first "=" three_equals_parts = Some remainder /\
    get_rtt [three_equals_parts] "0.00%" 0 =
      rtt_of_base (before_first "=" remainder) /\
    (Py.contains "=" remainder = false ->
     get_rtt [three_equals_parts] "0.00%" 0 =
       parseRtt_first_equals three_equals_parts) /\
    (forall ping lines s r,
       get_ping_results ping = Ok (lines, s, r) ->
       exists reference_point,
         get_statistics_summary_line lines = Ok reference_point /\
         get_rtt lines (packet_loss s) (reference_point + 2) = Ok r).
Proof.
  apply (get_rtt_base_up_to_second_equals
           [three_equals_parts] "0.00%" 0 three_equals_parts);
    [discriminate | reflexivity | reflexivity].
Defined.

(** C7, as stated, fails on [three_equals_parts]: the line has an equals
    sign, and the maximum comes from the text before the second equals
    sign, not from the entire remainder after the first. *)
Lemma get_rtt_not_entire_remainder :
  Py.contains "=" three_equals_parts = true /\
  get_rtt [three_equals_parts] "0.00%" 0 =
    Ok (mk_rtt (Some "5.978") (Some "6.264") (Some "6.564 ")) /\
  parseRtt_first_equals three_equals_parts =
    Ok (mk_rtt (Some "5.978") (Some "6.264") (Some "6.564 ms =")).
Proof. repeat split; reflexivity. Qed.

(** ** The whole parse *)

(** C6.  Scenario A: the five lines, joined by line feeds as the device
    sends them, parse to the summary 8, 8, 0.00% and the RTT 5.978, 6.264,
    6.564; the marker is found at index 2. *)
Theorem get_ping_results_scenario_a :
  Py.split (Py.join nl scenario_a) nl = scenario_a /\
  get_statistics_summary_line scenario_a = Ok 2 /\
  get_summary scenario_a 2 = Ok (mk_summary "8" "8" "0.00%") /\
  get_rtt scenario_a "0.00%" (2 + 2) =
    Ok (mk_rtt (Some "5.978") (Some "6.264") (Some "6.564")) /\
  get_ping_results (Py.join nl scenario_a) =
    Ok (scenario_a,
        mk_summary "8" "8" "0.00%",
        mk_rtt (Some "5.978") (Some "6.264") (Some "6.564")).
Proof. repeat split; reflexivity. Qed.

(** C8.  Two runs of [get_ping_results] on the same text end alike, be it
    with a result or with an exception; the lines of a result are those of
    the text, and the text made of these lines parses to the same result
    again. *)
Theorem get_ping_results_deterministic ping r1 r2 :
  get_ping_results ping = r1 ->
  get_ping_results ping = r2 ->
  r1 = r2 /\
  (forall lines s r,
     r1 = Ok (lines, s, r) ->
     lines = Py.split ping nl /\
     get_ping_results (Py.join nl lines) = r2).
Proof.
  intros H1 H2. split; [congruence |].
  intros lines s r Hr. subst r1.
  assert (Hlines : lines = Py.split ping nl)
    by apply (get_ping_results_Ok _ _ _ _ Hr).
  split; [exact Hlines |].
  subst lines. unfold nl at 1 2. now rewrite join_split_char.
Qed.

Lemma get_ping_results_deterministic_witness :
  Ok (scenario_a,
      mk_summary "8" "8" "0.00%",
      mk_rtt (Some "5.978") (Some "6.264") (Some "6.564")) =
  Ok (scenario_a,
      mk_summary "8" "8" "0.00%",
      mk_rtt (Some "5.978") (Some "6.264") (Some "6.564")) /\
  (forall lines s r,
     Ok (scenario_a,
         mk_summary "8" "8" "0.00%",
         mk_rtt (Some "5.978") (Some "6.264") (Some "6.564")) =
     Ok (lines, s, r) ->
     lines = Py.split (Py.join nl scenario_a) nl /\
     get_ping_results (Py.join nl lines) =
     Ok (scenario_a,
         mk_summary "8" "8" "0.00%",
         mk_rtt (Some "5.978") (Some "6.264") (Some "6.564"))).
Proof.
  apply (get_ping_results_deterministic (Py.join nl scenario_a));
    reflexivity.
Defined.

(** ** More facts about the primitives *)

Lemma all_chars_app p a b :
  all_chars p (a ++ b) = all_chars p a && all_chars p b.
Proof.
  induction a as [| c a IH]; simpl; [reflexivity |].
  now rewrite IH, andb_assoc.
Qed.

Lemma all_chars_impl (p q : ascii -> bool) s :
  (forall c, p c = true -> q c = true) ->
  all_chars p s = true -> all_chars q s = true.
Proof.
  intros Hpq. induction s as [| c s IH]; simpl; [reflexivity |].
  intros [Hc Hs]%andb_prop. now rewrite (Hpq c Hc), IH.
Qed.

Lemma plain_char_not_space c :
  plain_char c = true -> negb (Py.isspace c) = true.
Proof.
  destruct c as [[] [] [] [] [] [] [] []]; vm_compute;
    intros H; try discriminate H; reflexivity.
Qed.

Lemma plain_token_no_space t :
  plain_token t = true -> all_chars (fun c => negb (Py.isspace c)) t = true.
Proof. apply all_chars_impl, plain_char_not_space. Qed.

(** A character that is not plain occurs in no plain token. *)
Lemma plain_token_absent x t :
  plain_char x = false -> plain_token t = true -> absent x t = true.
Proof.
  intros Hx. apply all_chars_impl. intros c Hc.
  destruct (Ascii.eqb_spec x c) as [-> | _]; [congruence | reflexivity].
Qed.

Lemma absent_app c a b : absent c (a ++ b) = absent c a && absent c b.
Proof. apply all_chars_app. Qed.

(** *** Splitting a text whose first part lacks the separator *)

Lemma after_first_absent c a : absent c a = true -> after_first c a = None.
Proof.
  induction a as [| x a IH]; simpl; [reflexivity |].
  intros [Hx Ha]%andb_prop.
  destruct (Ascii.eqb c x); [discriminate | now apply IH].
Qed.

Lemma after_first_app c a b :
  absent c a = true -> after_first c (a ++ String c b) = Some b.
Proof.
  induction a as [| x a IH]; simpl.
  - now rewrite Ascii.eqb_refl.
  - intros [Hx Ha]%andb_prop.
    destruct (Ascii.eqb c x); [discriminate | now apply IH].
Qed.

Lemma before_first_app c a b :
  absent c a = true -> before_first c (a ++ String c b) = a.
Proof.
  induction a as [| x a IH]; simpl.
  - now rewrite Ascii.eqb_refl.
  - intros [Hx Ha]%andb_prop.
    destruct (Ascii.eqb c x); [discriminate | now rewrite IH].
Qed.

Lemma split_char_app c a b :
  absent c a = true ->
  Py.split (a ++ String c b) (String c EmptyString) =
  a :: Py.split b (String c EmptyString).
Proof.
  intros Ha. rewrite split_char_first.
  now rewrite after_first_app, before_first_app.
Qed.

Lemma split_char_absent c a :
  absent c a = true -> Py.split a (String c EmptyString) = [a].
Proof.
  intros Ha. rewrite split_char_first. now rewrite after_first_absent.
Qed.

(** *** The first field of a split on a longer separator *)

Lemma startswith_app sep r : Py.startswith sep (sep ++ r) = true.
Proof.
  induction sep as [| c sep IH]; simpl; [reflexivity |].
  now rewrite Ascii.eqb_refl, IH.
Qed.

Lemma hd_split_app p0 sep' a r :
  absent p0 a = true ->
  hd EmptyString (Py.split (a ++ String p0 sep' ++ r) (String p0 sep')) = a.
Proof.
  unfold Py.split. induction a as [| x a IH].
  - intros _. change (EmptyString ++ String p0 sep' ++ r)%string
      with (String p0 (sep' ++ r)).
    cbn [Py.split_aux].
    change (String p0 (sep' ++ r)) with (String p0 sep' ++ r)%string.
    now rewrite startswith_app.
  - intros [Hx Ha]%andb_prop.
    change (String x a ++ String p0 sep' ++ r)%string
      with (String x (a ++ String p0 sep' ++ r)).
    cbn [Py.split_aux Py.startswith].
    destruct (Ascii.eqb p0 x); [discriminate |]. cbn [andb].
    specialize (IH Ha).
    pose proof (split_aux_not_nil (String p0 sep')
                  (a ++ String p0 sep' ++ r)%string 0) as Hne.
    destruct (Py.split_aux (String p0 sep') 0 (a ++ String p0 sep' ++ r)%string);
      [congruence |].
    simpl in *. now subst.
Qed.

(** *** Stripping *)

Lemma lstrip_no_space t :
  all_chars (fun c => negb (Py.isspace c)) t = true -> Py.lstrip t = t.
Proof.
  destruct t as [| c t]; simpl; [reflexivity |].
  intros [Hc _]%andb_prop. now destruct (Py.isspace c).
Qed.

Lemma rstrip_app_space t :
  all_chars (fun c => negb (Py.isspace c)) t = true ->
  Py.rstrip (t ++ " ") = t.
Proof.
  induction t as [| c t IH]; [reflexivity |].
  intros [Hc Ht]%andb_prop.
  change (String c t ++ " ")%string with (String c (t ++ " ")).
  cbn [Py.rstrip]. rewrite (IH Ht).
  destruct t; [| reflexivity].
  now destruct (Py.isspace c).
Qed.

Lemma strip_token_right t :
  all_chars (fun c => negb (Py.isspace c)) t = true ->
  Py.strip (t ++ " ") = t.
Proof.
  intros Ht. unfold Py.strip.
  now rewrite rstrip_app_space, lstrip_no_space.
Qed.

Lemma strip_token_both t :
  all_chars (fun c => negb (Py.isspace c)) t = true ->
  Py.strip (" " ++ t ++ " ") = t.
Proof.
  intros Ht. unfold Py.strip.
  change (" " ++ t ++ " ")%string with (String " " (t ++ " ")).
  cbn [Py.rstrip]. rewrite (rstrip_app_space t Ht).
  destruct t as [| c t]; [reflexivity |].
  change (Py.lstrip (String c t) = String c t).
  now apply lstrip_no_space.
Qed.

Lemma lstrip_space_token t :
  all_chars (fun c => negb (Py.isspace c)) t = true ->
  Py.lstrip (" " ++ t) = t.
Proof. intros Ht. simpl. now apply lstrip_no_space. Qed.

(** *** Slicing off a suffix *)

Lemma substring_0_app a b : substring 0 (String.length a) (a ++ b) = a.
Proof.
  induction a as [| c a IH]; simpl.
  - now destruct b.
  - now rewrite IH.
Qed.

Lemma length_app a b :
  String.length (a ++ b) = (String.length a + String.length b)%nat.
Proof. induction a as [| c a IH]; simpl; [reflexivity | now rewrite IH]. Qed.

Lemma slice_to_minus_3 a u :
  String.length u = 3%nat -> Py.slice_to (a ++ u) (-3) = a.
Proof.
  intros Hu. unfold Py.slice_to. rewrite length_app, Hu.
  change (-3 <? 0) with true. cbn iota.
  replace (Z.to_nat (Z.max 0 (Z.of_nat (String.length a + 3) + -3)))
    with (String.length a) by lia.
  apply substring_0_app.
Qed.

(** *** Three dashes *)

Lemma contains_absent_dash s :
  absent "-" s = true -> Py.contains "---" s = false.
Proof.
  induction s as [| c s IH]; [reflexivity |].
  intros [Hc Hs]%andb_prop. cbn [Py.contains Py.startswith].
  destruct (Ascii.eqb "-" c); [discriminate |]. simpl. now apply IH.
Qed.

Lemma append_assoc (a b c : string) : ((a ++ b) ++ c = a ++ (b ++ c))%string.
Proof. induction a as [| x a IH]; simpl; [reflexivity | now rewrite IH]. Qed.

Lemma absent_cons c x s :
  absent c (String x s) = negb (Ascii.eqb c x) && absent c s.
Proof. reflexivity. Qed.

(** Goals [absent c s = true] where [s] is made of literals and of strings
    known to lack [c]. *)
Ltac absent_tac :=
  repeat first [rewrite absent_app | rewrite absent_cons];
  repeat match goal with
         | H : absent _ _ = true |- _ => rewrite H
         end;
  reflexivity.

(** ** The lines of a well-formed output *)

Lemma before_first_app_absent c a b :
  absent c a = true ->
  before_first c (a ++ b) = (a ++ before_first c b)%string.
Proof.
  induction a as [| x a IH]; simpl; [reflexivity |].
  intros [Hx Ha]%andb_prop.
  destruct (Ascii.eqb c x); [discriminate | now rewrite IH].
Qed.

Lemma strip_first_word_right t sep' r :
  plain_token t = true ->
  Py.strip (hd EmptyString
              (Py.split (t ++ " " ++ String "p" sep' ++ r) (String "p" sep')))
  = t.
Proof.
  intros Ht.
  pose proof (plain_token_absent "p" t eq_refl Ht) as Hp.
  replace (t ++ " " ++ String "p" sep' ++ r)%string
    with ((t ++ " ") ++ String "p" sep' ++ r)%string
    by (rewrite append_assoc; reflexivity).
  rewrite hd_split_app by absent_tac.
  apply strip_token_right. now apply plain_token_no_space.
Qed.

Lemma strip_first_word_both t sep' r :
  plain_token t = true ->
  Py.strip (hd EmptyString
              (Py.split (" " ++ t ++ " " ++ String "p" sep' ++ r)
                 (String "p" sep')))
  = t.
Proof.
  intros Ht.
  pose proof (plain_token_absent "p" t eq_refl Ht) as Hp.
  replace (" " ++ t ++ " " ++ String "p" sep' ++ r)%string
    with ((" " ++ t ++ " ") ++ String "p" sep' ++ r)%string
    by (simpl; rewrite append_assoc; reflexivity).
  rewrite hd_split_app by absent_tac.
  apply strip_token_both. now apply plain_token_no_space.
Qed.

Section StatisticsLines.

Variables tx rx loss mn av mx : string.
Hypothesis Htx : plain_token tx = true.
Hypothesis Hrx : plain_token rx = true.
Hypothesis Hloss : plain_token loss = true.
Hypothesis Hmn : plain_token mn = true.
Hypothesis Hav : plain_token av = true.
Hypothesis Hmx : plain_token mx = true.

(** The fields of the summary line: the words [w0] and [w1] must not hold
    a comma, the words [w2] may. *)
Lemma summary_line_with_fields w0 w1 w2 :
  absent "," w0 = true ->
  absent "," w1 = true ->
  exists rest,
    Py.split (summary_line_with tx w0 rx w1 loss w2) "," =
    (tx ++ " packets" ++ w0)%string ::
    (" " ++ rx ++ " packets" ++ w1)%string ::
    (" " ++ loss ++ " packet" ++ before_first "," w2)%string :: rest.
Proof.
  intros Hw0 Hw1.
  pose proof (plain_token_absent "," tx eq_refl Htx) as H1.
  pose proof (plain_token_absent "," rx eq_refl Hrx) as H2.
  pose proof (plain_token_absent "," loss eq_refl Hloss) as H3.
  replace (summary_line_with tx w0 rx w1 loss w2)
    with ((tx ++ " packets" ++ w0) ++
          String ","
            ((" " ++ rx ++ " packets" ++ w1) ++
             String "," (" " ++ loss ++ " packet" ++ w2)))%string
    by (unfold summary_line_with; simpl; repeat (rewrite append_assoc; simpl);
        reflexivity).
  rewrite split_char_app by absent_tac.
  rewrite split_char_app by absent_tac.
  pose proof (hd_split_char "," (" " ++ loss ++ " packet" ++ w2)) as Hhd.
  pose proof (split_not_nil (" " ++ loss ++ " packet" ++ w2) ",") as Hne.
  destruct (Py.split (" " ++ loss ++ " packet" ++ w2) ",") as [| f2 rest];
    [congruence |].
  exists rest. cbn [hd] in Hhd. subst f2. do 3 f_equal.
  replace (" " ++ loss ++ " packet" ++ w2)%string
    with ((" " ++ loss ++ " packet") ++ w2)%string
    by (simpl; rewrite append_assoc; reflexivity).
  rewrite before_first_app_absent by absent_tac.
  simpl. now rewrite append_assoc.
Qed.

(** What [get_summary] makes of such a line. *)
Lemma get_summary_of_summary_line_with l rp w0 w1 w2 :
  Py.getitem l (rp + 1) = Ok (summary_line_with tx w0 rx w1 loss w2) ->
  absent "," w0 = true ->
  absent "," w1 = true ->
  get_summary l rp = Ok (mk_summary tx rx loss).
Proof.
  intros Hget Hw0 Hw1. rewrite get_summary_eq, Hget.
  destruct (summary_line_with_fields w0 w1 w2 Hw0 Hw1) as [rest ->].
  f_equal. f_equal.
  - apply (strip_first_word_right tx "ackets" w0 Htx).
  - apply (strip_first_word_both rx "ackets" w1 Hrx).
  - apply (strip_first_word_both loss "acket" (before_first "," w2) Hloss).
Qed.

(** The parts and the tokens of the RTT line. *)
Lemma rtt_line_with_parts label unit :
  absent "=" label = true ->
  absent "=" unit = true ->
  Py.split (rtt_line_with label mn av mx unit) "=" =
  [ label; (" " ++ mn ++ "/" ++ av ++ "/" ++ mx ++ unit)%string ].
Proof.
  intros Hlabel Hunit.
  pose proof (plain_token_absent "=" mn eq_refl Hmn) as H1.
  pose proof (plain_token_absent "=" av eq_refl Hav) as H2.
  pose proof (plain_token_absent "=" mx eq_refl Hmx) as H3.
  change (rtt_line_with label mn av mx unit)
    with (label ++
          String "=" (" " ++ mn ++ "/" ++ av ++ "/" ++ mx ++ unit))%string.
  rewrite split_char_app by assumption.
  rewrite split_char_absent by absent_tac.
  reflexivity.
Qed.

Lemma rtt_base_tokens unit :
  absent "/" unit = true ->
  Py.split (" " ++ mn ++ "/" ++ av ++ "/" ++ mx ++ unit) "/" =
  [ (" " ++ mn)%string; av; (mx ++ unit)%string ].
Proof.
  intros Hunit.
  pose proof (plain_token_absent "/" mn eq_refl Hmn) as H1.
  pose proof (plain_token_absent "/" av eq_refl Hav) as H2.
  pose proof (plain_token_absent "/" mx eq_refl Hmx) as H3.
  change (" " ++ mn ++ "/" ++ av ++ "/" ++ mx ++ unit)%string
    with ((" " ++ mn) ++ String "/" (av ++ String "/" (mx ++ unit)))%string.
  rewrite split_char_app by absent_tac.
  rewrite split_char_app by absent_tac.
  rewrite split_char_absent by absent_tac.
  reflexivity.
Qed.

(** What [get_rtt] makes of such a line. *)
Lemma get_rtt_of_rtt_line_with l pl loc label unit :
  pl <> "100.00%" ->
  Py.getitem l loc = Ok (rtt_line_with label mn av mx unit) ->
  absent "=" label = true ->
  absent "=" unit = true ->
  absent "/" unit = true ->
  String.length unit = 3%nat ->
  get_rtt l pl loc = Ok (mk_rtt (Some mn) (Some av) (Some mx)).
Proof.
  intros Hpl Hget Hlabel Hu1 Hu2 Hlen.
  rewrite (get_rtt_other_loss l pl loc Hpl), Hget. simpl.
  rewrite rtt_of_line_eq, (rtt_line_with_parts label unit Hlabel Hu1).
  rewrite rtt_of_base_eq, (rtt_base_tokens unit Hu2).
  rewrite (lstrip_space_token mn (plain_token_no_space mn Hmn)).
  now rewrite (slice_to_minus_3 mx unit Hlen).
Qed.

Lemma summary_line_no_marker : is_marker (summary_line tx rx loss) = false.
Proof.
  pose proof (plain_token_absent "-" tx eq_refl Htx) as H1.
  pose proof (plain_token_absent "-" rx eq_refl Hrx) as H2.
  pose proof (plain_token_absent "-" loss eq_refl Hloss) as H3.
  apply contains_absent_dash. unfold summary_line. absent_tac.
Qed.

Lemma rtt_line_no_marker : is_marker (rtt_line mn av mx) = false.
Proof.
  pose proof (plain_token_absent "-" mn eq_refl Hmn) as H1.
  pose proof (plain_token_absent "-" av eq_refl Hav) as H2.
  pose proof (plain_token_absent "-" mx eq_refl Hmx) as H3.
  unfold is_marker, rtt_line.
  cbn [Py.contains Py.startswith append Ascii.eqb Bool.eqb andb orb].
  apply contains_absent_dash. absent_tac.
Qed.

End StatisticsLines.

(** The switch's lines are instances of the general ones. *)
Lemma summary_line_is_with tx rx loss :
  summary_line tx rx loss =
  summary_line_with tx " transmitted" rx " received" loss " loss".
Proof. reflexivity. Qed.

Lemma rtt_line_is_with mn av mx :
  rtt_line mn av mx =
  rtt_line_with "round-trip min/avg/max " mn av mx " ms".
Proof. reflexivity. Qed.

(** ** A single marker after a header *)

Lemma getitem_app_r (A : Type) (header tail : list A) k :
  0 <= k ->
  Py.getitem (header ++ tail) (Z.of_nat (List.length header) + k) =
  Py.getitem tail k.
Proof.
  intros Hk. rewrite !getitem_nonneg by lia.
  rewrite nth_error_app2 by lia.
  now replace (Z.to_nat (Z.of_nat (List.length header) + k)
               - List.length header)%nat with (Z.to_nat k) by lia.
Qed.

Lemma last_marker_app header marker tail :
  is_marker marker = true ->
  (forall t, In t tail -> is_marker t = false) ->
  last_marker (header ++ marker :: tail) = Some marker.
Proof.
  intros Hm Htail. apply last_marker_none in Htail.
  induction header as [| h header IH]; simpl.
  - now rewrite Htail, Hm.
  - now rewrite IH.
Qed.

Lemma index_from_app header marker tail : forall i,
  ~ In marker header ->
  Py.index_from marker (header ++ marker :: tail) i =
  Ok (i + Z.of_nat (List.length header)).
Proof.
  induction header as [| h header IH]; intros i Hnotin.
  - simpl. rewrite String.eqb_refl. f_equal. lia.
  - cbn [app Py.index_from].
    destruct (String.eqb_spec h marker) as [-> | _];
      [exfalso; apply Hnotin; now left |].
    rewrite IH by (intros Hin; apply Hnotin; now right).
    f_equal. cbn [List.length]. lia.
Qed.

(** With no marker before it and none after it, the marker is found where
    it stands. *)
Lemma marker_after_header header marker tail :
  (forall h, In h header -> is_marker h = false) ->
  is_marker marker = true ->
  (forall t, In t tail -> is_marker t = false) ->
  get_statistics_summary_line (header ++ marker :: tail) =
  Ok (Z.of_nat (List.length header)).
Proof.
  intros Hheader Hm Htail.
  rewrite get_statistics_summary_line_eq, (last_marker_app _ _ _ Hm Htail).
  unfold Py.index. rewrite index_from_app; [reflexivity |].
  intros Hin. apply Hheader in Hin. congruence.
Qed.

Lemma marker_line_is_marker dest : is_marker (marker_line dest) = true.
Proof. reflexivity. Qed.

(** What [l.index] returns: a position of [x] with no [x] before it. *)
Lemma index_from_sound x l : forall i j,
  Py.index_from x l i = Ok j ->
  i <= j /\
  nth_error l (Z.to_nat (j - i)) = Some x /\
  (forall m, (m < Z.to_nat (j - i))%nat -> nth_error l m <> Some x).
Proof.
  induction l as [| y l IH]; intros i j; simpl; [discriminate |].
  destruct (String.eqb_spec y x) as [-> | Hne].
  - intros [= <-]. rewrite Z.sub_diag. simpl.
    repeat split; [lia | intros m Hm; lia].
  - intros H. destruct (IH _ _ H) as (Hle & Hnth & Hfirst).
    replace (Z.to_nat (j - i)) with (S (Z.to_nat (j - (i + 1)))) by lia.
    repeat split; [lia | exact Hnth |].
    intros [| m] Hm; simpl; [congruence |]. apply Hfirst. lia.
Qed.

(** ** What the functions guarantee *)

(** An index returned by [get_statistics_summary_line] is inside the list;
    the line there contains three dashes, is equal to the last such line of
    the list, and no line before it is equal to it. *)
Theorem get_statistics_summary_line_sound l i :
  get_statistics_summary_line l = Ok i ->
  0 <= i < Z.of_nat (List.length l) /\
  exists line,
    Py.getitem l i = Ok line /\
    Py.contains "---" line = true /\
    last_marker l = Some line /\
    (forall j, 0 <= j < i -> Py.getitem l j <> Ok line).
Proof.
  rewrite get_statistics_summary_line_eq.
  destruct (last_marker l) as [m |] eqn:Hlast; [| discriminate].
  intros Hidx. apply index_from_sound in Hidx as (Hle & Hnth & Hfirst).
  rewrite Z.sub_0_r in *.
  assert (Hlt : (Z.to_nat i < List.length l)%nat)
    by (apply nth_error_Some; congruence).
  split; [lia |]. exists m. repeat split.
  - rewrite getitem_nonneg by lia. now rewrite Hnth.
  - exact (last_marker_is_marker _ _ Hlast).
  - intros j Hj. rewrite getitem_nonneg by lia.
    specialize (Hfirst (Z.to_nat j) ltac:(lia)).
    destruct (nth_error l (Z.to_nat j)); congruence.
Qed.

Lemma get_statistics_summary_line_sound_witness :
  0 <= 0 < Z.of_nat (List.length repeated_marker) /\
  exists line,
    Py.getitem repeated_marker 0 = Ok line /\
    Py.contains "---" line = true /\
    last_marker repeated_marker = Some line /\
    (forall j, 0 <= j < 0 -> Py.getitem repeated_marker j <> Ok line).
Proof.
  apply (get_statistics_summary_line_sound repeated_marker 0). reflexivity.
Defined.

(** [get_statistics_summary_line] returns an index exactly when some line
    contains three dashes. *)
Theorem get_statistics_summary_line_returns_iff l :
  (exists i, get_statistics_summary_line l = Ok i) <->
  (exists line, In line l /\ Py.contains "---" line = true).
Proof.
  rewrite get_statistics_summary_line_eq. split.
  - intros [i Hi]. destruct (last_marker l) as [m |] eqn:E; [| discriminate].
    exists m. split; [now apply last_marker_In |].
    exact (last_marker_is_marker _ _ E).
  - intros (line & Hin & Hline).
    destruct (last_marker l) as [m |] eqn:E.
    + destruct (index_from_In m l 0 (last_marker_In _ _ E)) as [j Hj].
      now exists j.
    + pose proof (proj1 (last_marker_none l) E line Hin) as Hno.
      unfold is_marker in Hno. congruence.
Qed.

(** On a summary line [<tx> packets<w0>, <rx> packets<w1>, <loss>
    packet<w2>] with plain tokens, [get_summary] returns the three tokens,
    whatever the words are: [w0] and [w1] without a comma, [w2] any. *)
Theorem get_summary_words_ignored l rp tx w0 rx w1 loss w2 :
  Py.getitem l (rp + 1) = Ok (summary_line_with tx w0 rx w1 loss w2) ->
  plain_token tx = true ->
  plain_token rx = true ->
  plain_token loss = true ->
  absent "," w0 = true ->
  absent "," w1 = true ->
  get_summary l rp = Ok (mk_summary tx rx loss).
Proof.
  intros Hget Htx Hrx Hloss Hw0 Hw1.
  exact (get_summary_of_summary_line_with tx rx loss Htx Hrx Hloss
           l rp w0 w1 w2 Hget Hw0 Hw1).
Qed.

Lemma get_summary_words_ignored_witness :
  get_summary
    [ "--- 10.1.1.1 ping statistics ---";
      "5 packets sent, 4 packets back, 20.00% packet lost, 1 duplicate" ] 0 =
  Ok (mk_summary "5" "4" "20.00%").
Proof.
  apply (get_summary_words_ignored _ 0
           "5" " sent" "4" " back" "20.00%" " lost, 1 duplicate");
    reflexivity.
Defined.

(** On an RTT line [<label>= <min>/<avg>/<max><unit>] with plain tokens,
    a label without an equals sign and a unit of three characters without
    equals sign or slash, [get_rtt] returns the three tokens, whatever the
    label and the unit are. *)
Theorem get_rtt_label_and_unit_ignored l pl loc label mn av mx unit :
  pl <> "100.00%" ->
  Py.getitem l loc = Ok (rtt_line_with label mn av mx unit) ->
  plain_token mn = true ->
  plain_token av = true ->
  plain_token mx = true ->
  absent "=" label = true ->
  absent "=" unit = true ->
  absent "/" unit = true ->
  String.length unit = 3%nat ->
  get_rtt l pl loc = Ok (mk_rtt (Some mn) (Some av) (Some mx)).
Proof.
  intros Hpl Hget Hmn Hav Hmx Hlabel Hu1 Hu2 Hlen.
  exact (get_rtt_of_rtt_line_with mn av mx Hmn Hav Hmx
           l pl loc label unit Hpl Hget Hlabel Hu1 Hu2 Hlen).
Qed.

Lemma get_rtt_label_and_unit_ignored_witness :
  get_rtt ["rtt low/mean/high (usec) = 120/135.5/150 us"] "0.00%" 0 =
  Ok (mk_rtt (Some "120") (Some "135.5") (Some "150")).
Proof.
  apply (get_rtt_label_and_unit_ignored _ _ _
           "rtt low/mean/high (usec) " "120" "135.5" "150" " us");
    try reflexivity.
  discriminate.
Defined.

(** ** Whole outputs *)

Section WholeOutputs.

Variables (ping : string) (header rest : list string) (dest : string).
Hypothesis Hheader : forall h, In h header -> Py.contains "---" h = false.
Hypothesis Hrest : forall h, In h rest -> Py.contains "---" h = false.

Lemma summary_after_marker tail :
  Py.getitem (header ++ marker_line dest :: tail)
    (Z.of_nat (List.length header) + 1) = Py.getitem tail 0.
Proof.
  rewrite getitem_app_r by lia. rewrite getitem_1, getitem_0.
  now destruct tail.
Qed.

Lemma rtt_after_marker line tail :
  Py.getitem (header ++ marker_line dest :: line :: tail)
    (Z.of_nat (List.length header) + 2) = Py.getitem tail 0.
Proof.
  rewrite getitem_app_r by lia. rewrite getitem_2, getitem_0.
  now destruct tail.
Qed.

(** The pipeline on lines whose only marker stands after the header. *)
Lemma get_ping_results_after_header tail :
  Py.split ping nl = header ++ marker_line dest :: tail ->
  (forall t, In t tail -> is_marker t = false) ->
  get_ping_results ping =
  (summary <- get_summary (Py.split ping nl) (Z.of_nat (List.length header)) ;;
   rtt <- get_rtt (Py.split ping nl) (packet_loss summary)
            (Z.of_nat (List.length header) + 2) ;;
   Ok (Py.split ping nl, summary, rtt)).
Proof.
  intros Hsplit Htail. unfold get_ping_results. fold nl. rewrite Hsplit.
  now rewrite (marker_after_header header (marker_line dest) tail
                 Hheader (marker_line_is_marker dest) Htail).
Qed.

Lemma tail_no_marker line tail :
  is_marker line = false ->
  (forall t, In t tail -> is_marker t = false) ->
  forall t, In t (line :: tail) -> is_marker t = false.
Proof. intros Hline Htail t [<- | Hin]; [assumption | now apply Htail]. Qed.

End WholeOutputs.

(** A well-formed output with a loss other than ["100.00%"]: some header
    lines, the marker, the summary line, the RTT line and any further
    lines, with plain tokens and three dashes in the marker only.  The
    result holds the six tokens. *)
Theorem get_ping_results_well_formed
  ping header dest tx rx loss mn av mx rest :
  Py.split ping nl =
    header ++ marker_line dest :: summary_line tx rx loss ::
    rtt_line mn av mx :: rest ->
  (forall h, In h header -> Py.contains "---" h = false) ->
  (forall h, In h rest -> Py.contains "---" h = false) ->
  plain_token tx = true -> plain_token rx = true ->
  plain_token loss = true ->
  plain_token mn = true -> plain_token av = true -> plain_token mx = true ->
  loss <> "100.00%" ->
  get_ping_results ping =
  Ok (Py.split ping nl,
      mk_summary tx rx loss,
      mk_rtt (Some mn) (Some av) (Some mx)).
Proof.
  intros Hsplit Hheader Hrest Htx Hrx Hloss Hmn Hav Hmx Hpl.
  rewrite (get_ping_results_after_header ping header dest Hheader _ Hsplit)
    by (apply tail_no_marker; [now apply summary_line_no_marker |];
        apply tail_no_marker; [now apply rtt_line_no_marker | exact Hrest]).
  rewrite Hsplit.
  rewrite (get_summary_of_summary_line_with tx rx loss Htx Hrx Hloss
             _ _ " transmitted" " received" " loss")
    by (rewrite ?summary_after_marker; reflexivity).
  cbn [bind packet_loss].
  rewrite (get_rtt_of_rtt_line_with mn av mx Hmn Hav Hmx
             _ loss _ "round-trip min/avg/max " " ms" Hpl)
    by (rewrite ?rtt_after_marker; reflexivity).
  reflexivity.
Qed.

Lemma get_ping_results_well_formed_witness :
  get_ping_results (Py.join nl scenario_a) =
  Ok (Py.split (Py.join nl scenario_a) nl,
      mk_summary "8" "8" "0.00%",
      mk_rtt (Some "5.978") (Some "6.264") (Some "6.564")).
Proof.
  apply (get_ping_results_well_formed (Py.join nl scenario_a)
           ["PING 8.8.8.8: 56 data bytes"; ""] "8.8.8.8"
           "8" "8" "0.00%" "5.978" "6.264" "6.564" []);
    try reflexivity.
  - intros h [<- | [<- | []]]; reflexivity.
  - intros h [].
  - discriminate.
Defined.

(** A well-formed output with the loss ["100.00%"]: whatever lines
    without three dashes follow the summary line, and also when nothing
    follows it, the result holds the summary and the RTT of three [None].
    A later line with three dashes would be taken for the marker. *)
Theorem get_ping_results_total_loss ping header dest tx rx rest :
  Py.split ping nl =
    header ++ marker_line dest :: summary_line tx rx "100.00%" :: rest ->
  (forall h, In h header -> Py.contains "---" h = false) ->
  (forall h, In h rest -> Py.contains "---" h = false) ->
  plain_token tx = true -> plain_token rx = true ->
  get_ping_results ping =
  Ok (Py.split ping nl, mk_summary tx rx "100.00%", null_rtt).
Proof.
  intros Hsplit Hheader Hrest Htx Hrx.
  assert (Hloss : plain_token "100.00%" = true) by reflexivity.
  rewrite (get_ping_results_after_header ping header dest Hheader _ Hsplit)
    by (apply tail_no_marker;
        [now apply summary_line_no_marker | exact Hrest]).
  rewrite Hsplit.
  rewrite (get_summary_of_summary_line_with tx rx "100.00%" Htx Hrx Hloss
             _ _ " transmitted" " received" " loss")
    by (rewrite ?summary_after_marker; reflexivity).
  reflexivity.
Qed.

(** With a line of three dashes after the summary line, that line is
    taken for the marker and the same output fails. *)
Example get_ping_results_total_loss_later_dashes :
  get_ping_results (Py.join nl (scenario_b ++ ["--- end ---"])) =
  Raise IndexError.
Proof. reflexivity. Qed.

Lemma get_ping_results_total_loss_witness :
  get_ping_results (Py.join nl scenario_b) =
  Ok (Py.split (Py.join nl scenario_b) nl,
      mk_summary "8" "0" "100.00%", null_rtt).
Proof.
  apply (get_ping_results_total_loss (Py.join nl scenario_b)
           ["PING 8.8.8.8: 56 data bytes"; ""] "8.8.8.8" "8" "0" []);
    try reflexivity.
  - intros h [<- | [<- | []]]; reflexivity.
  - intros h [].
Defined.

(** An output cut after the marker line makes [get_ping_results] raise
    [IndexError]: there is no line to read the summary from. *)
Theorem get_ping_results_cut_after_marker ping header dest :
  Py.split ping nl = header ++ [marker_line dest] ->
  (forall h, In h header -> Py.contains "---" h = false) ->
  get_ping_results ping = Raise IndexError.
Proof.
  intros Hsplit Hheader.
  rewrite (get_ping_results_after_header ping header dest Hheader _ Hsplit)
    by (intros t []).
  rewrite Hsplit, get_summary_eq, summary_after_marker. reflexivity.
Qed.

Lemma get_ping_results_cut_after_marker_witness :
  get_ping_results "PING 10.0.0.1
--- 10.0.0.1 ping statistics ---" = Raise IndexError.
Proof.
  apply (get_ping_results_cut_after_marker _ ["PING 10.0.0.1"] "10.0.0.1");
    [reflexivity |].
  intros h [<- | []]; reflexivity.
Defined.

(** An output cut after a summary line whose loss is not ["100.00%"] makes
    [get_ping_results] raise [IndexError]: the RTT line is read and is not
    there. *)
Theorem get_ping_results_cut_after_summary ping header dest tx rx loss :
  Py.split ping nl = header ++ [marker_line dest; summary_line tx rx loss] ->
  (forall h, In h header -> Py.contains "---" h = false) ->
  plain_token tx = true -> plain_token rx = true ->
  plain_token loss = true -> loss <> "100.00%" ->
  get_ping_results ping = Raise IndexError.
Proof.
  intros Hsplit Hheader Htx Hrx Hloss Hpl.
  rewrite (get_ping_results_after_header ping header dest Hheader _ Hsplit)
    by (apply tail_no_marker;
        [now apply summary_line_no_marker | intros t []]).
  rewrite Hsplit.
  rewrite (get_summary_of_summary_line_with tx rx loss Htx Hrx Hloss
             _ _ " transmitted" " received" " loss")
    by (rewrite ?summary_after_marker; reflexivity).
  cbn [bind packet_loss].
  rewrite (get_rtt_other_loss _ loss _ Hpl), rtt_after_marker.
  reflexivity.
Qed.

Lemma get_ping_results_cut_after_summary_witness :
  get_ping_results "PING 10.0.0.1
--- 10.0.0.1 ping statistics ---
5 packets transmitted, 4 packets received, 20.00% packet loss"
  = Raise IndexError.
Proof.
  apply (get_ping_results_cut_after_summary _ ["PING 10.0.0.1"] "10.0.0.1"
           "5" "4" "20.00%"); try reflexivity.
  - intros h [<- | []]; reflexivity.
  - discriminate.
Defined.

Lemma get_summary_raises_only_IndexError l rp e :
  get_summary l rp = Raise e -> e = IndexError.
Proof.
  rewrite get_summary_eq.
  destruct (Py.getitem l (rp + 1)) as [line | e'] eqn:Hget.
  - destruct (Py.split line ",") as [| f0 [| f1 [| f2 rest]]]; congruence.
  - intros [= <-]. exact (getitem_raises_IndexError _ _ _ Hget).
Qed.

Lemma get_rtt_raises_only_IndexError l pl loc e :
  get_rtt l pl loc = Raise e -> e = IndexError.
Proof.
  destruct (string_dec pl "100.00%") as [-> | Hpl].
  - rewrite get_rtt_total_loss. discriminate.
  - rewrite (get_rtt_other_loss l pl loc Hpl).
    destruct (Py.getitem l loc) as [line | e'] eqn:Hget; simpl.
    + destruct (rtt_of_line_cases line) as [[_ ->] | [_ (a & b & c & ->)]];
        congruence.
    + intros [= <-]. exact (getitem_raises_IndexError _ _ _ Hget).
Qed.

Lemma get_statistics_summary_line_Ok_marker l i :
  get_statistics_summary_line l = Ok i ->
  exists line, In line l /\ Py.contains "---" line = true.
Proof.
  rewrite get_statistics_summary_line_eq.
  destruct (last_marker l) as [m |] eqn:E; [| discriminate].
  intros _. exists m. split; [now apply last_marker_In |].
  exact (last_marker_is_marker _ _ E).
Qed.

Lemma get_ping_results_raise_cases ping e :
  get_ping_results ping = Raise e ->
  (e = UnboundLocalError /\
   forall line, In line (Py.split ping nl) ->
                Py.contains "---" line = false) \/
  (e = IndexError /\
   exists line, In line (Py.split ping nl) /\
                Py.contains "---" line = true).
Proof.
  unfold get_ping_results. fold nl. set (lines := Py.split ping nl).
  destruct (get_statistics_summary_line lines) as [rp | e1] eqn:Hrp.
  - assert (Hex : exists line, In line lines /\ Py.contains "---" line = true)
      by (eapply get_statistics_summary_line_Ok_marker; eauto).
    cbn [bind].
    destruct (get_summary lines rp) as [s | e2] eqn:Hs.
    + cbn [bind].
      destruct (get_rtt lines (packet_loss s) (rp + 2)) as [r | e3] eqn:Hr;
        [discriminate |].
      cbn [bind]. intros [= <-]. right. split; [| exact Hex].
      exact (get_rtt_raises_only_IndexError _ _ _ _ Hr).
    + cbn [bind]. intros [= <-]. right. split; [| exact Hex].
      exact (get_summary_raises_only_IndexError _ _ _ Hs).
  - cbn [bind]. intros [= <-]. left.
    destruct (get_statistics_summary_line_raises _ _ Hrp) as [-> Hno].
    split; [reflexivity | exact Hno].
Qed.

(** The parse of a text, lines 221 to 226 of [get_ping_results]: it
    raises [UnboundLocalError] when no line of the text contains three
    dashes and [IndexError] when one does, and nothing else.  What the call
    of the device raises before there is a text is not in this statement. *)
Theorem get_ping_results_raises ping e :
  get_ping_results ping = Raise e ->
  (e = UnboundLocalError /\
   forall line, In line (Py.split ping nl) ->
                Py.contains "---" line = false) \/
  (e = IndexError /\
   exists line, In line (Py.split ping nl) /\
                Py.contains "---" line = true).
Proof. apply get_ping_results_raise_cases. Qed.

Lemma get_ping_results_raises_witness :
  (IndexError = UnboundLocalError /\
   forall line, In line (Py.split "--- 10.0.0.1 ping statistics ---" nl) ->
                Py.contains "---" line = false) \/
  (IndexError = IndexError /\
   exists line, In line (Py.split "--- 10.0.0.1 ping statistics ---" nl) /\
                Py.contains "---" line = true).
Proof.
  apply (get_ping_results_raises "--- 10.0.0.1 ping statistics ---").
  reflexivity.
Defined.

(** ** The command *)

Lemma append_nil_r (a : string) : (a ++ "")%string = a.
Proof. induction a as [| c a IH]; simpl; [reflexivity | now rewrite IH]. Qed.

Lemma startswith_app_l p a b :
  Py.startswith p a = true -> Py.startswith p (a ++ b) = true.
Proof.
  revert a. induction p as [| x p IH]; intros a; [reflexivity |].
  destruct a as [| y a]; simpl; [discriminate |].
  intros [Hxy Hp]%andb_prop. now rewrite Hxy, IH.
Qed.

Lemma contains_app_l s a b :
  Py.contains s a = true -> Py.contains s (a ++ b) = true.
Proof.
  induction a as [| y a IH].
  - simpl. rewrite orb_false_r. intros H.
    destruct s; [now destruct b | discriminate].
  - cbn [Py.contains append]. intros [H | H]%orb_prop.
    + change (String y (a ++ b)) with (String y a ++ b)%string.
      now rewrite (startswith_app_l _ _ b H).
    + rewrite (IH H). apply orb_true_r.
Qed.

Lemma contains_app_r s a b :
  Py.contains s b = true -> Py.contains s (a ++ b) = true.
Proof.
  intros H. induction a as [| y a IH]; [exact H |].
  cbn [Py.contains append]. rewrite IH. apply orb_true_r.
Qed.

Lemma contains_self_app s b : Py.contains s (s ++ b) = true.
Proof.
  destruct s as [| c s]; [now destruct b |].
  cbn [Py.contains append].
  change (String c (s ++ b)) with (String c s ++ b)%string.
  now rewrite startswith_app.
Qed.

Lemma startswith_refl p : Py.startswith p p = true.
Proof.
  pose proof (startswith_app p EmptyString) as H.
  now rewrite append_nil_r in H.
Qed.

Lemma contains_refl s : Py.contains s s = true.
Proof.
  pose proof (contains_self_app s EmptyString) as H.
  now rewrite append_nil_r in H.
Qed.

(** One turn of the loop leaves what is there and may add to its end. *)
Lemma add_option_extends cmd item :
  exists suffix, add_option cmd item = (cmd ++ suffix)%string.
Proof.
  destruct item as [k v]. unfold add_option.
  destruct (truthy v); [eauto |]. exists EmptyString.
  now rewrite append_nil_r.
Qed.

Lemma fold_add_option_extends items : forall cmd,
  exists suffix, fold_left add_option items cmd = (cmd ++ suffix)%string.
Proof.
  induction items as [| item items IH]; intros cmd; simpl.
  - exists EmptyString. now rewrite append_nil_r.
  - destruct (add_option_extends cmd item) as [s1 ->].
    destruct (IH (cmd ++ s1)%string) as [s2 ->].
    exists (s1 ++ s2)%string. apply append_assoc.
Qed.

Lemma fold_add_option_filter items : forall cmd,
  fold_left add_option items cmd =
  fold_left add_option (filter (fun item => truthy (snd item)) items) cmd.
Proof.
  induction items as [| [k v] items IH]; intros cmd; [reflexivity |].
  cbn [fold_left filter snd]. destruct (truthy v) eqn:Hv.
  - cbn [fold_left]. apply IH.
  - unfold add_option at 2. rewrite Hv. apply IH.
Qed.

Lemma Permutation_filter (A : Type) (f : A -> bool) (l1 l2 : list A) :
  Permutation l1 l2 -> Permutation (filter f l1) (filter f l2).
Proof.
  induction 1 as [| x l1 l2 _ IH | x y l | l1 l2 l3 _ IH1 _ IH2]; simpl.
  - constructor.
  - destruct (f x); [now constructor | assumption].
  - destruct (f x), (f y); try apply Permutation_refl.
    apply perm_swap.
  - now apply perm_trans with (filter f l2).
Qed.

(** The command begins with [ping] and the destination, and every option
    whose value is true in the sense of [if arg:] stands in it with its
    value. *)
Theorem ping_command_of_holds_option destination items command arg :
  In (command, arg) items ->
  truthy arg = true ->
  Py.startswith ("ping " ++ destination) (ping_command_of destination items)
    = true /\
  Py.contains (" " ++ command ++ " " ++ format_arg arg)
    (ping_command_of destination items) = true.
Proof.
  intros Hin Harg. unfold ping_command_of. split.
  - destruct (fold_add_option_extends items ("ping " ++ destination)%string)
      as [suffix ->].
    apply startswith_app_l, startswith_refl.
  - generalize ("ping " ++ destination)%string as cmd.
    induction items as [| item items IH]; intros cmd; [contradiction |].
    cbn [fold_left]. destruct Hin as [-> | Hin]; [| now apply IH].
    unfold add_option at 2. rewrite Harg.
    destruct (fold_add_option_extends items
                (cmd ++ " " ++ command ++ " " ++ format_arg arg)%string)
      as [suffix ->].
    apply contains_app_l, contains_app_r, contains_refl.
Qed.

Lemma ping_command_of_holds_option_witness :
  Py.startswith ("ping " ++ "8.8.8.8")
    (ping_command_of "8.8.8.8"
       [("count", PyInt 8); ("vrf", PyStr "management"); ("source", PyNone)])
    = true /\
  Py.contains (" " ++ "vrf" ++ " " ++ format_arg (PyStr "management"))
    (ping_command_of "8.8.8.8"
       [("count", PyInt 8); ("vrf", PyStr "management"); ("source", PyNone)])
    = true.
Proof.
  apply (ping_command_of_holds_option "8.8.8.8"
           [("count", PyInt 8); ("vrf", PyStr "management");
            ("source", PyNone)]
           "vrf" (PyStr "management")).
  - right. left. reflexivity.
  - reflexivity.
Defined.

(** Options that are [None], the empty string or the integer 0 are not
    sent: when no option is true in the sense of [if arg:], the command is
    [ping] and the destination. *)
Theorem ping_command_of_unset_options destination items :
  (forall command arg, In (command, arg) items -> truthy arg = false) ->
  ping_command_of destination items = ("ping " ++ destination)%string.
Proof.
  intros Hfalse. unfold ping_command_of. rewrite fold_add_option_filter.
  replace (filter (fun item => truthy (snd item)) items) with
    (@nil (string * pyval)); [reflexivity |].
  symmetry. induction items as [| [k v] items IH]; [reflexivity |].
  cbn [filter snd]. rewrite (Hfalse k v (or_introl eq_refl)).
  apply IH. intros k' v' Hin. apply (Hfalse k' v'). now right.
Qed.

Lemma ping_command_of_unset_options_witness :
  ping_command_of "8.8.8.8" (OPTIONS PyNone (PyInt 0) (PyStr "")) =
  ("ping " ++ "8.8.8.8")%string.
Proof.
  apply (ping_command_of_unset_options "8.8.8.8").
  intros command arg [[= <- <-] | [[= <- <-] | [[= <- <-] | []]]];
    reflexivity.
Defined.

(** When at most one option is true in the sense of [if arg:], the command
    does not depend on the order in which the dictionary yields its
    items. *)
Theorem ping_command_of_order_independent destination items1 items2 :
  Permutation items1 items2 ->
  (List.length (filter (fun item => truthy (snd item)) items1) <= 1)%nat ->
  ping_command_of destination items1 = ping_command_of destination items2.
Proof.
  intros Hperm Hlen. unfold ping_command_of.
  rewrite (fold_add_option_filter items1), (fold_add_option_filter items2).
  apply (Permutation_filter _ (fun item => truthy (snd item))) in Hperm.
  destruct (filter (fun item => truthy (snd item)) items1)
    as [| item [| item' rest]].
  - now rewrite (Permutation_nil Hperm).
  - now rewrite (Permutation_length_1_inv Hperm).
  - simpl in Hlen. lia.
Qed.

Lemma ping_command_of_order_independent_witness :
  ping_command_of "8.8.8.8" (OPTIONS PyNone (PyInt 4) PyNone) =
  ping_command_of "8.8.8.8"
    [("count", PyInt 4); ("source", PyNone); ("vrf", PyNone)].
Proof.
  apply (ping_command_of_order_independent "8.8.8.8").
  - exact (perm_trans
             (perm_swap ("count", PyInt 4) ("vrf", PyNone) [("source", PyNone)])
             (perm_skip ("count", PyInt 4)
                (perm_swap ("source", PyNone) ("vrf", PyNone) []))).
  - simpl. lia.
Defined.

(** With two options set the order shows: only the order count, vrf gives
    the command of the module's documentation. *)
Example ping_command_of_two_options :
  ping_command_of "8.8.8.8"
    [("count", PyStr "8"); ("vrf", PyStr "management"); ("source", PyNone)]
  = "ping 8.8.8.8 count 8 vrf management" /\
  ping_command_of "8.8.8.8"
    (OPTIONS (PyStr "management") (PyStr "8") PyNone)
  = "ping 8.8.8.8 vrf management count 8" /\
  ping_command_of "8.8.8.8" (OPTIONS PyNone (PyInt 4) PyNone)
  = "ping 8.8.8.8 count 4".
Proof. repeat split; reflexivity. Qed.

(** ** The task *)

(** The first line of a text is what stands before its first line feed. *)
Lemma first_line ping :
  Py.getitem (Py.split ping nl) 0 = Ok (before_first "010" ping).
Proof. unfold nl. now rewrite getitem_split_0, hd_split_char. Qed.

(** [main] once the library is there and the device has answered. *)
Lemma main_parses p iteritems device ping :
  device (ping_command_of (p_dest p)
            (iteritems (OPTIONS (p_vrf p) (p_count p) (p_source p))))
  = Body ping ->
  main true p iteritems device =
  match get_ping_results ping with
  | Raise e => uncaught e
  | Ok (ping_results, summary, rtt) =>
      exit_json
        (mk_results
           (ping_command_of (p_dest p)
              (iteritems (OPTIONS (p_vrf p) (p_count p) (p_source p))))
           (before_first "010" ping) (p_dest p) (p_count p)
           (packets_tx summary) (packets_rx summary) (packet_loss summary)
           rtt)
  end.
Proof.
  intros Hdev. unfold main, parsed_data_from_device. cbn [negb].
  rewrite Hdev.
  destruct (get_ping_results ping) as [[[lines s] r] | e] eqn:Hres;
    [| reflexivity].
  destruct (get_ping_results_Ok _ _ _ _ Hres) as [-> _].
  now rewrite first_line.
Qed.

(** When the answer of the device carries a text, not empty, that cannot
    be parsed, this is not reported through [fail_json]: [main] ends with
    the uncaught [UnboundLocalError] or [IndexError] of the parse. *)
Theorem main_malformed_output_uncaught p iteritems device ping e :
  device (ping_command_of (p_dest p)
            (iteritems (OPTIONS (p_vrf p) (p_count p) (p_source p))))
  = Body ping ->
  ping <> EmptyString ->
  get_ping_results ping = Raise e ->
  main true p iteritems device = uncaught e /\
  (e = UnboundLocalError \/ e = IndexError).
Proof.
  intros Hdev _ Hres. rewrite (main_parses _ _ _ _ Hdev), Hres.
  split; [reflexivity |].
  destruct (get_ping_results_raise_cases _ _ Hres) as [[-> _] | [-> _]];
    auto.
Qed.

Lemma main_malformed_output_uncaught_witness :
  main true (mk_params "8.8.8.8" (PyInt 4) PyNone PyNone) (fun items => items)
    (fun _ => Body "ping: sendto: network unreachable")
  = uncaught UnboundLocalError /\
  (UnboundLocalError = UnboundLocalError \/ UnboundLocalError = IndexError).
Proof.
  apply (main_malformed_output_uncaught
           (mk_params "8.8.8.8" (PyInt 4) PyNone PyNone) (fun items => items)
           (fun _ => Body "ping: sendto: network unreachable")
           "ping: sendto: network unreachable");
    [reflexivity | discriminate | reflexivity].
Defined.

(** When the parse succeeds [main] ends with [exit_json]: the subscription
    of the first line cannot fail, [action] is the text before the first
    line feed of the output, [command] the command sent, and the packet
    fields and the RTT are those of the parse. *)
Theorem main_exit_json p iteritems device ping lines summary rtt :
  device (ping_command_of (p_dest p)
            (iteritems (OPTIONS (p_vrf p) (p_count p) (p_source p))))
  = Body ping ->
  get_ping_results ping = Ok (lines, summary, rtt) ->
  main true p iteritems device =
  exit_json
    (mk_results
       (ping_command_of (p_dest p)
          (iteritems (OPTIONS (p_vrf p) (p_count p) (p_source p))))
       (before_first "010" ping) (p_dest p) (p_count p)
       (packets_tx summary) (packets_rx summary) (packet_loss summary) rtt).
Proof.
  intros Hdev Hres. now rewrite (main_parses _ _ _ _ Hdev), Hres.
Qed.

Lemma main_exit_json_witness :
  main true (mk_params "8.8.8.8" (PyStr "8") PyNone PyNone)
    (fun items => items) (fun _ => Body (Py.join nl scenario_a))
  = exit_json
      (mk_results "ping 8.8.8.8 count 8" "PING 8.8.8.8: 56 data bytes"
         "8.8.8.8" (PyStr "8") "8" "8" "0.00%"
         (mk_rtt (Some "5.978") (Some "6.264") (Some "6.564"))).
Proof.
  apply (main_exit_json (mk_params "8.8.8.8" (PyStr "8") PyNone PyNone)
           (fun items => items) (fun _ => Body (Py.join nl scenario_a))
           (Py.join nl scenario_a) scenario_a
           (mk_summary "8" "8" "0.00%")
           (mk_rtt (Some "5.978") (Some "6.264") (Some "6.564")));
    reflexivity.
Defined.

(** ** What the tokens are made of *)

(** The fields of a split on one character do not hold that character, and
    hold only characters of the text. *)
Lemma split_char_fields_absent c s :
  Forall (fun f => absent c f = true) (Py.split s (String c EmptyString)).
Proof.
  induction s as [| a s IH]; [repeat constructor |].
  rewrite split_char_cons.
  pose proof (split_not_nil s (String c EmptyString)) as Hne.
  destruct (Py.split s (String c EmptyString)) as [| f fs]; [congruence |].
  destruct (Ascii.eqb c a) eqn:E.
  - constructor; [reflexivity | assumption].
  - inversion IH as [| ? ? Hf Hfs]; subst.
    constructor; [| assumption]. now rewrite absent_cons, E, Hf.
Qed.

Lemma split_char_fields_all p c s :
  all_chars p s = true ->
  Forall (fun f => all_chars p f = true) (Py.split s (String c EmptyString)).
Proof.
  induction s as [| a s IH]; intros Hs; [repeat constructor |].
  simpl in Hs. apply andb_prop in Hs as [Ha Hs]. specialize (IH Hs).
  rewrite split_char_cons.
  pose proof (split_not_nil s (String c EmptyString)) as Hne.
  destruct (Py.split s (String c EmptyString)) as [| f fs]; [congruence |].
  destruct (Ascii.eqb c a).
  - constructor; [reflexivity | assumption].
  - inversion IH as [| ? ? Hf Hfs]; subst.
    constructor; [| assumption]. simpl. now rewrite Ha, Hf.
Qed.

(** The first field of a split is the beginning of the text and does not
    contain the separator. *)
Lemma hd_split_prefix sep s :
  exists rest, s = (hd EmptyString (Py.split s sep) ++ rest)%string.
Proof.
  unfold Py.split. induction s as [| c s [rest IH]].
  - now exists EmptyString.
  - cbn [Py.split_aux].
    destruct (Py.startswith sep (String c s)); [now exists (String c s) |].
    pose proof (split_aux_not_nil sep s 0) as Hne.
    destruct (Py.split_aux sep 0 s) as [| f fs]; [congruence |].
    exists rest. simpl in *. now rewrite <- IH.
Qed.

Lemma hd_split_no_sep x sep' s :
  Py.contains (String x sep')
    (hd EmptyString (Py.split s (String x sep'))) = false.
Proof.
  unfold Py.split. induction s as [| c s IH]; [reflexivity |].
  cbn [Py.split_aux].
  destruct (Py.startswith (String x sep') (String c s)) eqn:Hstart;
    [reflexivity |].
  destruct (hd_split_prefix (String x sep') s) as [rest Hrest].
  unfold Py.split in Hrest.
  pose proof (split_aux_not_nil (String x sep') s 0) as Hne.
  destruct (Py.split_aux (String x sep') 0 s) as [| f fs]; [congruence |].
  cbn [hd] in *. cbn [Py.contains]. rewrite IH, orb_false_r.
  destruct (Py.startswith (String x sep') (String c f)) eqn:E;
    [| reflexivity].
  apply (startswith_app_l _ _ rest) in E.
  change (String c f ++ rest)%string with (String c (f ++ rest)) in E.
  rewrite <- Hrest in E. congruence.
Qed.

(** Stripping cuts a beginning, an end, or both; stripping again changes
    nothing. *)
Lemma lstrip_suffix s : exists pre, s = (pre ++ Py.lstrip s)%string.
Proof.
  induction s as [| c s [pre IH]]; [now exists EmptyString |].
  simpl. destruct (Py.isspace c); [| now exists EmptyString].
  exists (String c pre). simpl. now rewrite <- IH.
Qed.

Lemma rstrip_prefix s : exists post, s = (Py.rstrip s ++ post)%string.
Proof.
  induction s as [| c s [post IH]]; [now exists EmptyString |].
  simpl. destruct (Py.rstrip s) as [| d r] eqn:E.
  - destruct (Py.isspace c); [now exists (String c s) |].
    exists s. reflexivity.
  - exists post. simpl in *. now rewrite <- IH.
Qed.

Lemma rstrip_idem s : Py.rstrip (Py.rstrip s) = Py.rstrip s.
Proof.
  induction s as [| c s IH]; [reflexivity |].
  simpl. destruct (Py.rstrip s) as [| d r] eqn:E.
  - destruct (Py.isspace c) eqn:Hc; [reflexivity |]. simpl. now rewrite Hc.
  - cbn [Py.rstrip] in *. now rewrite IH.
Qed.

Lemma rstrip_tail c s :
  Py.rstrip (String c s) = String c s -> Py.rstrip s = s.
Proof.
  simpl. destruct (Py.rstrip s) as [| d r].
  - destruct (Py.isspace c); [discriminate |]. now intros [= <-].
  - now intros [= <-].
Qed.

Lemma rstrip_of_suffix pre s :
  Py.rstrip (pre ++ s) = (pre ++ s)%string -> Py.rstrip s = s.
Proof.
  induction pre as [| c pre IH]; [trivial |].
  intros H. apply IH. exact (rstrip_tail _ _ H).
Qed.

Lemma lstrip_idem s : Py.lstrip (Py.lstrip s) = Py.lstrip s.
Proof.
  induction s as [| c s IH]; [reflexivity |].
  simpl. destruct (Py.isspace c) eqn:Hc; [assumption |].
  simpl. now rewrite Hc.
Qed.

Lemma strip_idem s : Py.strip (Py.strip s) = Py.strip s.
Proof.
  unfold Py.strip.
  destruct (lstrip_suffix (Py.rstrip s)) as [pre Hpre].
  assert (H : Py.rstrip (Py.lstrip (Py.rstrip s)) = Py.lstrip (Py.rstrip s)).
  { apply (rstrip_of_suffix pre). rewrite <- Hpre. apply rstrip_idem. }
  rewrite H. apply lstrip_idem.
Qed.

Lemma strip_part s :
  exists pre post, s = (pre ++ Py.strip s ++ post)%string.
Proof.
  unfold Py.strip.
  destruct (rstrip_prefix s) as [post Hpost].
  destruct (lstrip_suffix (Py.rstrip s)) as [pre Hpre].
  exists pre, post. rewrite <- append_assoc, <- Hpre. exact Hpost.
Qed.

Lemma substring_0_prefix n : forall s,
  exists post, s = (substring 0 n s ++ post)%string.
Proof.
  induction n as [| n IH]; intros s.
  - exists s. now destruct s.
  - destruct s as [| c s]; [now exists EmptyString |].
    destruct (IH s) as [post Hpost]. exists post. simpl. now rewrite <- Hpost.
Qed.

(** A part of a text holds only characters of the text, and contains only
    what the text contains. *)
Lemma all_chars_part p pre s post :
  all_chars p (pre ++ s ++ post) = true -> all_chars p s = true.
Proof.
  rewrite !all_chars_app. intros [_ [H _]%andb_prop]%andb_prop. exact H.
Qed.

Lemma contains_part sub pre s post :
  Py.contains sub (pre ++ s ++ post) = false -> Py.contains sub s = false.
Proof.
  intros H. destruct (Py.contains sub s) eqn:E; [| reflexivity].
  rewrite (contains_app_r sub pre _ (contains_app_l sub s post E)) in H.
  discriminate.
Qed.

Lemma absent_strip c s : absent c s = true -> absent c (Py.strip s) = true.
Proof.
  intros H. destruct (strip_part s) as (pre & post & Hs).
  unfold absent in *. rewrite Hs in H. exact (all_chars_part _ _ _ _ H).
Qed.

Lemma absent_lstrip c s : absent c s = true -> absent c (Py.lstrip s) = true.
Proof.
  intros H. destruct (lstrip_suffix s) as (pre & Hs).
  rewrite Hs, absent_app in H. now apply andb_prop in H.
Qed.

Lemma absent_slice_to c s : absent c s = true ->
  absent c (Py.slice_to s (-3)) = true.
Proof.
  intros H. unfold Py.slice_to.
  destruct (substring_0_prefix
              (Z.to_nat (if -3 <? 0
                         then Z.max 0 (Z.of_nat (String.length s) + -3)
                         else Z.min (-3) (Z.of_nat (String.length s)))) s)
    as [post Hs].
  rewrite Hs, absent_app in H. now apply andb_prop in H.
Qed.

Lemma absent_hd_split c s sep :
  absent c s = true -> absent c (hd EmptyString (Py.split s sep)) = true.
Proof.
  intros H. destruct (hd_split_prefix sep s) as [rest Hs].
  rewrite Hs, absent_app in H. now apply andb_prop in H.
Qed.

(** A token of [get_summary]: the stripped text before a word. *)
Lemma word_token_clean f x sep' :
  absent "," f = true ->
  Py.strip (Py.strip (hd EmptyString (Py.split f (String x sep')))) =
    Py.strip (hd EmptyString (Py.split f (String x sep'))) /\
  absent "," (Py.strip (hd EmptyString (Py.split f (String x sep')))) = true /\
  Py.contains (String x sep')
    (Py.strip (hd EmptyString (Py.split f (String x sep')))) = false.
Proof.
  intros Hf. split; [apply strip_idem | split].
  - now apply absent_strip, absent_hd_split.
  - destruct (strip_part (hd EmptyString (Py.split f (String x sep'))))
      as (pre & post & Hs).
    apply (contains_part _ pre _ post). rewrite <- Hs.
    apply hd_split_no_sep.
Qed.

(** Whatever the line is, the tokens that [get_summary] returns have no
    white space at either end and no comma; the two packet counts do not
    contain the word [packets], nor the loss the word [packet]. *)
Theorem get_summary_tokens_clean l rp s :
  get_summary l rp = Ok s ->
  Forall (fun t => Py.strip t = t /\ absent "," t = true)
    [packets_tx s; packets_rx s; packet_loss s] /\
  Py.contains "packets" (packets_tx s) = false /\
  Py.contains "packets" (packets_rx s) = false /\
  Py.contains "packet" (packet_loss s) = false.
Proof.
  rewrite get_summary_eq.
  destruct (Py.getitem l (rp + 1)) as [line | e]; [| discriminate].
  pose proof (split_char_fields_absent "," line) as Hfields.
  destruct (Py.split line ",") as [| f0 [| f1 [| f2 rest]]];
    try discriminate.
  intros [= <-]. cbn [packets_tx packets_rx packet_loss].
  inversion Hfields as [| ? ? H0 Hfields1]; subst.
  inversion Hfields1 as [| ? ? H1 Hfields2]; subst.
  inversion Hfields2 as [| ? ? H2 _]; subst.
  destruct (word_token_clean f0 "p" "ackets" H0) as (A0 & B0 & C0).
  destruct (word_token_clean f1 "p" "ackets" H1) as (A1 & B1 & C1).
  destruct (word_token_clean f2 "p" "acket" H2) as (A2 & B2 & C2).
  repeat split; try assumption.
  repeat constructor; assumption.
Qed.

Lemma get_summary_tokens_clean_witness :
  Forall (fun t => Py.strip t = t /\ absent "," t = true)
    [ packets_tx (mk_summary "a  b" "" "n/a");
      packets_rx (mk_summary "a  b" "" "n/a");
      packet_loss (mk_summary "a  b" "" "n/a") ] /\
  Py.contains "packets" (packets_tx (mk_summary "a  b" "" "n/a")) = false /\
  Py.contains "packets" (packets_rx (mk_summary "a  b" "" "n/a")) = false /\
  Py.contains "packet" (packet_loss (mk_summary "a  b" "" "n/a")) = false.
Proof.
  apply (get_summary_tokens_clean
           ["---"; "   a  b packets packets,packets,  n/a  ,"] 0).
  reflexivity.
Defined.

(** Whatever the line is, the tokens that [get_rtt] returns for a loss
    other than ["100.00%"] have no slash and no equals sign, and the
    minimum has no white space at its beginning. *)
Theorem get_rtt_tokens_clean l pl loc r :
  pl <> "100.00%" ->
  get_rtt l pl loc = Ok r ->
  exists mn av mx,
    r = mk_rtt (Some mn) (Some av) (Some mx) /\
    Py.lstrip mn = mn /\
    Forall (fun t => absent "/" t = true /\ absent "=" t = true)
      [mn; av; mx].
Proof.
  intros Hpl. rewrite (get_rtt_other_loss l pl loc Hpl).
  destruct (Py.getitem l loc) as [line | e]; [| discriminate].
  cbn [bind]. rewrite rtt_of_line_eq.
  pose proof (split_char_fields_absent "=" line) as Hparts.
  destruct (Py.split line "=") as [| lbl [| base rest]]; try discriminate.
  inversion Hparts as [| ? ? _ Hparts1]; subst.
  inversion Hparts1 as [| ? ? Hbase _]; subst.
  rewrite rtt_of_base_eq.
  pose proof (split_char_fields_absent "/" base) as Hslash.
  pose proof (split_char_fields_all _ "/" base Hbase) as Heq.
  destruct (Py.split base "/") as [| t0 [| t1 [| t2 rest']]];
    try discriminate.
  intros [= <-].
  inversion Hslash as [| ? ? S0 Hs1]; subst.
  inversion Hs1 as [| ? ? S1 Hs2]; subst.
  inversion Hs2 as [| ? ? S2 _]; subst.
  inversion Heq as [| ? ? E0 He1]; subst.
  inversion He1 as [| ? ? E1 He2]; subst.
  inversion He2 as [| ? ? E2 _]; subst.
  exists (Py.lstrip t0), t1, (Py.slice_to t2 (-3)).
  split; [reflexivity | split; [apply lstrip_idem |]].
  repeat constructor; try assumption.
  - now apply absent_lstrip.
  - now apply (absent_lstrip "=").
  - now apply absent_slice_to.
  - now apply (absent_slice_to "=").
Qed.

Lemma get_rtt_tokens_clean_witness :
  exists mn av mx,
    mk_rtt (Some "a b") (Some " ") (Some "") =
      mk_rtt (Some mn) (Some av) (Some mx) /\
    Py.lstrip mn = mn /\
    Forall (fun t => absent "/" t = true /\ absent "=" t = true)
      [mn; av; mx].
Proof.
  apply (get_rtt_tokens_clean ["x =   a b/ /ms/y=z"] "50%" 0);
    [discriminate | reflexivity].
Defined.
